(** * PlaygroundMCP: the common tools server and the generator config server

    A shallow embedding of [common_mcp_tools.py] and
    [generator_mcp_config_server.py].  Python values are inductive data,
    a call that may raise returns a [result], and the directory [papers/]
    is an explicit state that [search_papers] threads and the read-only
    tools inspect. *)

From Stdlib Require Import String Ascii List Bool Arith ZArith Lia.
From Stdlib Require Import Floats DecimalString.
From Stdlib Require Import Permutation Sorted.
Import ListNotations.

Set Warnings "-register-all".
Local Open Scope list_scope.
Local Open Scope string_scope.

(** ** Python exceptions and results *)

Module Py.

(** The exception classes the two servers meet.  All of them derive from
    [Exception]; [Other] stands for any further class by its name. *)
Inductive exn_class :=
| FileNotFoundError
| FileExistsError
| JSONDecodeError
| AttributeError
| TypeError
| KeyError
| Other (name : string).

(** An exception: its class and the text [str(e)] gives. *)
Record exn := mk_exn { exn_cls : exn_class; exn_str : string }.

Inductive result (A : Type) :=
| Ok (a : A)
| Raise (e : exn).
Arguments Ok {A} a.
Arguments Raise {A} e.

Definition bind {A B} (r : result A) (k : A -> result B) : result B :=
  match r with
  | Ok a => k a
  | Raise e => Raise e
  end.

(** [try: body except Exception as e: handler(e)] *)
Definition try_except {A} (body : result A) (handler : exn -> result A) : result A :=
  match body with
  | Ok a => Ok a
  | Raise e => handler e
  end.

Definition nl : string := String "010" EmptyString.

(** [str(n)] for a non-negative integer. *)
Definition str_nat (n : nat) : string := NilZero.string_of_uint (Nat.to_uint n).

End Py.
Import Py.

Declare Scope py_scope.
Delimit Scope py_scope with py.
Notation "x <- c ;; k" := (bind c (fun x => k))
  (at level 61, c at next level, right associativity) : py_scope.
Local Open Scope py_scope.

(** ** Insertion-ordered dictionaries with string keys

    A Python [dict] keeps its keys in insertion order, and an assignment to
    a key that is present overwrites the value in place. *)

Module Dict.
Section Dict.
Context {V : Type}.

Definition t := list (string * V).

Fixpoint lookup (k : string) (d : t) : option V :=
  match d with
  | [] => None
  | (k', v) :: rest => if String.eqb k k' then Some v else lookup k rest
  end.

(** [d[k] = v] *)
Fixpoint set (k : string) (v : V) (d : t) : t :=
  match d with
  | [] => [(k, v)]
  | (k', v') :: rest =>
      if String.eqb k k' then (k, v) :: rest else (k', v') :: set k v rest
  end.

Definition mem (k : string) (d : t) : bool :=
  match lookup k d with Some _ => true | None => false end.

Definition keys (d : t) : list string := map fst d.

Lemma lookup_set (k k' : string) (v : V) (d : t) :
  lookup k' (set k v d) = if String.eqb k' k then Some v else lookup k' d.
Proof.
  induction d as [|[k0 v0] rest IH]; simpl.
  - reflexivity.
  - destruct (String.eqb k k0) eqn:E; simpl.
    + apply String.eqb_eq in E; subst k0.
      destruct (String.eqb k' k); reflexivity.
    + rewrite IH. destruct (String.eqb k' k0) eqn:E0; [|reflexivity].
      apply String.eqb_eq in E0; subst k0.
      rewrite String.eqb_sym, E. reflexivity.
Qed.

Lemma set_set (k : string) (v v' : V) (d : t) :
  set k v (set k v' d) = set k v d.
Proof.
  induction d as [|[k0 v0] rest IH]; simpl.
  - rewrite String.eqb_refl. reflexivity.
  - destruct (String.eqb k k0) eqn:E; simpl.
    + rewrite String.eqb_refl.
      apply String.eqb_eq in E; subst k0. reflexivity.
    + rewrite E, IH. reflexivity.
Qed.

Lemma mem_set (k k' : string) (v : V) (d : t) :
  mem k' (set k v d) = String.eqb k' k || mem k' d.
Proof.
  unfold mem. rewrite lookup_set. destruct (String.eqb k' k); reflexivity.
Qed.

(** Two assignments commute when the key of one of them is present. *)
Lemma set_comm (k k' : string) (v v' : V) (d : t) :
  k <> k' -> mem k' d = true ->
  set k v (set k' v' d) = set k' v' (set k v d).
Proof.
  intros Hne. induction d as [|[k0 v0] rest IH]; simpl; intros Hm.
  - discriminate.
  - unfold mem in Hm. simpl in Hm.
    destruct (String.eqb k' k0) eqn:E'.
    + apply String.eqb_eq in E'; subst k0.
      destruct (String.eqb k k') eqn:E.
      * apply String.eqb_eq in E. contradiction.
      * simpl. rewrite E, String.eqb_refl. reflexivity.
    + destruct (String.eqb k k0) eqn:E; simpl.
      * rewrite E. apply String.eqb_eq in E; subst k0.
        rewrite E'. reflexivity.
      * rewrite E, E', IH; [reflexivity|exact Hm].
Qed.

(** An assignment that stores the value already there changes nothing. *)
Lemma set_same (k : string) (v : V) (d : t) :
  lookup k d = Some v -> set k v d = d.
Proof.
  induction d as [|[k0 v0] rest IH]; simpl.
  - discriminate.
  - destruct (String.eqb k k0) eqn:E.
    + apply String.eqb_eq in E; subst k0.
      intros [= ->]. reflexivity.
    + intros H. rewrite IH by exact H. reflexivity.
Qed.

Lemma keys_set_present (k : string) (v : V) (d : t) :
  mem k d = true -> keys (set k v d) = keys d.
Proof.
  unfold mem, keys. induction d as [|[k0 v0] rest IH]; simpl.
  - discriminate.
  - destruct (String.eqb k k0) eqn:E; simpl.
    + apply String.eqb_eq in E; subst k0. reflexivity.
    + intros H. rewrite IH by exact H. reflexivity.
Qed.

Lemma keys_set_absent (k : string) (v : V) (d : t) :
  mem k d = false -> keys (set k v d) = (keys d ++ [k])%list.
Proof.
  unfold mem, keys. induction d as [|[k0 v0] rest IH]; simpl.
  - reflexivity.
  - destruct (String.eqb k k0) eqn:E; simpl.
    + discriminate.
    + intros H. rewrite IH by exact H. reflexivity.
Qed.

Lemma mem_In_keys (k : string) (d : t) :
  mem k d = true <-> In k (keys d).
Proof.
  unfold mem, keys. induction d as [|[k0 v0] rest IH]; simpl.
  - split; [discriminate|tauto].
  - destruct (String.eqb k k0) eqn:E.
    + apply String.eqb_eq in E; subst k0. tauto.
    + apply String.eqb_neq in E. rewrite IH. split.
      * auto.
      * intros [H|H]; [congruence|exact H].
Qed.

Lemma NoDup_keys_set (k : string) (v : V) (d : t) :
  NoDup (keys d) -> NoDup (keys (set k v d)).
Proof.
  intros H. destruct (mem k d) eqn:E.
  - rewrite keys_set_present by exact E. exact H.
  - rewrite keys_set_absent by exact E.
    apply NoDup_app; [exact H|repeat constructor; simpl; tauto|].
    intros x Hx [<-|[]].
    apply mem_In_keys in Hx. congruence.
Qed.

End Dict.
Arguments t V : clear implicits.
End Dict.

(** ** Python strings

    A [str] is modelled by its sequence of characters, for ASCII text: on
    it [lower], [replace] and [title] are Python's.  Python's case mappings
    of other letters are not modelled (a character that is no ASCII letter
    stays as it is here), so a property of [lower] or [title] speaks of
    ASCII text only; [is_ascii] delimits it. *)

Module PyStr.

Definition is_upper (c : ascii) : bool :=
  let n := nat_of_ascii c in ((65 <=? n) && (n <=? 90))%nat.

Definition is_lower (c : ascii) : bool :=
  let n := nat_of_ascii c in ((97 <=? n) && (n <=? 122))%nat.

Definition to_lower (c : ascii) : ascii :=
  if is_upper c then ascii_of_nat (nat_of_ascii c + 32) else c.

Definition to_upper (c : ascii) : ascii :=
  if is_lower c then ascii_of_nat (nat_of_ascii c - 32) else c.

Fixpoint map_chars (f : ascii -> ascii) (s : string) : string :=
  match s with
  | EmptyString => EmptyString
  | String c rest => String (f c) (map_chars f rest)
  end.

Fixpoint forall_chars (p : ascii -> bool) (s : string) : bool :=
  match s with
  | EmptyString => true
  | String c rest => p c && forall_chars p rest
  end.

(** [c in s] for a character [c] *)
Fixpoint has_char (c : ascii) (s : string) : bool :=
  match s with
  | EmptyString => false
  | String c' rest => Ascii.eqb c c' || has_char c rest
  end.

(** ASCII text: what [lower] and [title] are modelled on. *)
Definition is_ascii (c : ascii) : bool := (nat_of_ascii c <? 128)%nat.

Definition ascii_text (s : string) : bool := forall_chars is_ascii s.

(** [s.lower()], on ASCII text *)
Definition lower (s : string) : string := map_chars to_lower s.

(** [s.replace(old, new)] for one-character [old] and [new] *)
Definition replace (old new : ascii) (s : string) : string :=
  map_chars (fun c => if Ascii.eqb c old then new else c) s.

(** [s.title()], on ASCII text: a cased character is upper-cased when the
    character before it is not cased, and lower-cased when it is. *)
Fixpoint title_from (previous_is_cased : bool) (s : string) : string :=
  match s with
  | EmptyString => EmptyString
  | String c rest =>
      if is_lower c then
        String (if previous_is_cased then c else to_upper c) (title_from true rest)
      else if is_upper c then
        String (if previous_is_cased then to_lower c else c) (title_from true rest)
      else String c (title_from false rest)
  end.

Definition title (s : string) : string := title_from false s.

(** [s[:n]] *)
Fixpoint take (n : nat) (s : string) : string :=
  match n, s with
  | S n', String c rest => String c (take n' rest)
  | _, _ => EmptyString
  end.

(** [sub in s] *)
Definition contains (sub s : string) : bool :=
  match String.index 0 sub s with Some _ => true | None => false end.

(** [sep.join(parts)] *)
Fixpoint join (sep : string) (parts : list string) : string :=
  match parts with
  | [] => EmptyString
  | [p] => p
  | p :: rest => p ++ sep ++ join sep rest
  end.

Definition hex_digit (n : nat) : ascii :=
  if (n <? 10)%nat then ascii_of_nat (48 + n) else ascii_of_nat (87 + n).

Definition escape_char (quote c : ascii) : string :=
  let n := nat_of_ascii c in
  if Ascii.eqb c quote || Ascii.eqb c "\"%char then String "\"%char (String c EmptyString)
  else if (n =? 10)%nat then "\n"
  else if (n =? 13)%nat then "\r"
  else if (n =? 9)%nat then "\t"
  else if ((n <? 32) || (n =? 127))%nat then
    "\x" ++ String (hex_digit (n / 16)) (String (hex_digit (n mod 16)) EmptyString)
  else String c EmptyString.

Fixpoint escape (quote : ascii) (s : string) : string :=
  match s with
  | EmptyString => EmptyString
  | String c rest => escape_char quote c ++ escape quote rest
  end.

(** [repr(s)]: single quotes, unless the text has a single quote and no
    double quote. *)
Definition repr (s : string) : string :=
  let quote : ascii :=
    if has_char "'"%char s && negb (has_char "034"%char s) then "034"%char else "'"%char in
  String quote (escape quote s ++ String quote EmptyString).






Lemma map_chars_map_chars (f g : ascii -> ascii) (s : string) :
  map_chars f (map_chars g s) = map_chars (fun c => f (g c)) s.
Proof.
  induction s as [|c rest IH]; simpl; [reflexivity|]. rewrite IH. reflexivity.
Qed.


Lemma append_assoc (a b c : string) : (a ++ b) ++ c = a ++ b ++ c.
Proof.
  induction a as [|x a IH]; simpl; [reflexivity|]. rewrite IH. reflexivity.
Qed.

Lemma take_length (n : nat) (s : string) :
  String.length (take n s) = Nat.min n (String.length s).
Proof.
  revert s. induction n as [|n IH]; intros [|c rest]; simpl; auto.
Qed.

Lemma take_all (n : nat) (s : string) :
  String.length s <= n -> take n s = s.
Proof.
  revert s. induction n as [|n IH]; intros [|c rest]; simpl; intros H;
    try reflexivity; try lia.
  rewrite IH by lia. reflexivity.
Qed.

Lemma take_prefix (n : nat) (s : string) :
  String.prefix (take n s) s = true.
Proof.
  revert s. induction n as [|n IH]; intros [|c rest]; simpl; try reflexivity.
  destruct (ascii_dec c c); [apply IH|congruence].
Qed.

End PyStr.

(** ** common_mcp_tools.py *)

Module CommonTools.

Definition PAPER_DIR : string := "papers".

(** *** What [json.load] returns *)

Inductive json :=
| JNull
| JBool (b : bool)
| JInt (z : Z)
| JFloat (f : float)
| JStr (s : string)
| JArr (items : list json)
| JObj (members : Dict.t json).

(** [type(v).__name__] *)
Definition type_name (v : json) : string :=
  match v with
  | JNull => "NoneType"
  | JBool _ => "bool"
  | JInt _ => "int"
  | JFloat _ => "float"
  | JStr _ => "str"
  | JArr _ => "list"
  | JObj _ => "dict"
  end.

(** [bool(v)] *)
Definition truthy (v : json) : bool :=
  match v with
  | JNull => false
  | JBool b => b
  | JInt z => negb (Z.eqb z 0)
  | JFloat f => negb (PrimFloat.eqb f PrimFloat.zero)
  | JStr s => negb (String.eqb s "")
  | JArr items => match items with [] => false | _ :: _ => true end
  | JObj members => match members with [] => false | _ :: _ => true end
  end.

Definition is_str (k : string) (v : json) : bool :=
  match v with JStr s => String.eqb s k | _ => false end.

Definition type_error (text : string) : exn := mk_exn TypeError text.

(** [k in v] for a string [k] *)
Definition py_contains (k : string) (v : json) : result bool :=
  match v with
  | JObj members => Ok (Dict.mem k members)
  | JArr items => Ok (existsb (is_str k) items)
  | JStr s => Ok (PyStr.contains k s)
  | _ => Raise (type_error ("argument of type '" ++ type_name v ++ "' is not iterable"))
  end.

(** [v[k]] for a string [k] *)
Definition py_getitem (v : json) (k : string) : result json :=
  match v with
  | JObj members =>
      match Dict.lookup k members with
      | Some x => Ok x
      | None => Raise (mk_exn KeyError (PyStr.repr k))
      end
  | JArr _ => Raise (type_error "list indices must be integers or slices, not str")
  | JStr _ => Raise (type_error "string indices must be integers, not 'str'")
  | _ => Raise (type_error ("'" ++ type_name v ++ "' object is not subscriptable"))
  end.

(** [v[k] = x] for a string [k] *)
Definition py_setitem (v : json) (k : string) (x : json) : result json :=
  match v with
  | JObj members => Ok (JObj (Dict.set k x members))
  | JArr _ => Raise (type_error "list indices must be integers or slices, not str")
  | _ => Raise (type_error ("'" ++ type_name v ++ "' object does not support item assignment"))
  end.

(** *** The directory [papers/]

    A file is represented by what [open(file_path, "r")] and [json.load]
    do on it: the bytes are not UTF-8 text and reading them raises
    [UnicodeDecodeError]; or the text is not JSON and [json.load] raises
    [JSONDecodeError]; or [json.load] returns a value.  [json.dump] writes
    a text that loads back to the value dumped.  [PAPER_DIR] holds items in
    the order [os.listdir] gives them; an item is a directory, with or
    without a regular file [papers_info.json], or it is not a directory.

    The items are keyed by their names.  A topic's slug, or the folder name
    given to [get_topic_papers], is looked up as such a key: this is what
    [os.path.join(PAPER_DIR, name)] denotes for a [plain_name], the name of
    a direct child of [PAPER_DIR].  The functions below do not resolve the
    other names (the empty name, a dot, two dots, a name with a slash in
    it), which [os.path.join] takes to [PAPER_DIR] itself, outside it or
    below one of its children. *)

Inductive file :=
| Unparsable                  (* json.load raises JSONDecodeError *)
| NotUtf8 (reason : string)   (* reading raises UnicodeDecodeError(reason) *)
| Holds (v : json).

Definition UnicodeDecodeError (reason : string) : exn :=
  mk_exn (Other "UnicodeDecodeError") reason.

(** A name that [os.path.join(PAPER_DIR, name)] takes to the child of
    [PAPER_DIR] with that name. *)
Definition plain_name (name : string) : bool :=
  negb (name =? "") && negb (name =? ".") && negb (name =? "..")
  && PyStr.forall_chars
       (fun c => negb (Ascii.eqb c "/") && negb (Ascii.eqb c "000") && PyStr.is_ascii c)
       name
  && (String.length name <=? 255)%nat.

Inductive entry :=
| PlainFile
| TopicDir (papers_info_json : option file).

(** [None]: [PAPER_DIR] does not exist. *)
Definition disk := option (Dict.t entry).

(** The regular file [papers/<name>/papers_info.json], when there is one,
    for a [plain_name]. *)
Definition papers_file (d : disk) (name : string) : option file :=
  match d with
  | None => None
  | Some items =>
      match Dict.lookup name items with
      | Some (TopicDir f) => f
      | _ => None
      end
  end.

(** *** The search collaborator: one [arxiv.Result] *)

Record paper := {
  short_id : string;            (* paper.get_short_id() *)
  title : string;
  authors : list string;        (* author.name for each author *)
  summary : string;
  pdf_url : string;
  published : option string     (* str(paper.published.date()) when published *)
}.

Definition paper_info_entry (p : paper) : json :=
  JObj [ ("title", JStr (title p));
         ("authors", JArr (map JStr (authors p)));
         ("summary", JStr (summary p));
         ("pdf_url", JStr (pdf_url p));
         ("published", JStr (match published p with Some day => day | None => "N/A" end)) ].

(** *** search_papers *)

Definition topic_slug (topic : string) : string :=
  PyStr.replace " " "_" (PyStr.lower topic).

(** [os.makedirs(PAPER_DIR, exist_ok=True)] *)
Definition makedirs_root (d : disk) : Dict.t entry :=
  match d with
  | Some items => items
  | None => []
  end.

(** [os.makedirs(topic_path, exist_ok=True)], for a slug that is a
    [plain_name] *)
Definition makedirs_topic (items : Dict.t entry) (slug : string) : result (Dict.t entry) :=
  match Dict.lookup slug items with
  | None => Ok (Dict.set slug (TopicDir None) items)
  | Some (TopicDir _) => Ok items
  | Some PlainFile =>
      Raise (mk_exn FileExistsError
               ("[Errno 17] File exists: " ++ PyStr.repr (PAPER_DIR ++ "/" ++ slug)))
  end.

(** The [try: json.load ... except (FileNotFoundError, JSONDecodeError)]
    block: any other exception leaves it. *)
Definition load_papers_info (f : option file) : result json :=
  match f with
  | Some (Holds v) => Ok v
  | Some Unparsable => Ok (JObj [])
  | None => Ok (JObj [])
  | Some (NotUtf8 reason) => Raise (UnicodeDecodeError reason)
  end.

(** The loop over [papers_iterator]: one assignment per result. *)
Fixpoint record_papers (papers_info : json) (papers_iterator : list paper) : result json :=
  match papers_iterator with
  | [] => Ok papers_info
  | p :: rest =>
      papers_info' <- py_setitem papers_info (short_id p) (paper_info_entry p) ;;
      record_papers papers_info' rest
  end.

(** [search_papers(topic, max_results)], run on the disk [d], where
    [papers_iterator] is what [client.results(search)] yields for the query
    and [max_results].  It returns the disk it leaves and its outcome. *)
Definition search_papers (papers_iterator : list paper) (d : disk) (topic : string)
  : disk * result (list string) :=
  let items := makedirs_root d in
  let slug := topic_slug topic in
  match makedirs_topic items slug with
  | Raise e => (Some items, Raise e)
  | Ok items =>
      match load_papers_info (papers_file (Some items) slug) with
      | Raise e => (Some items, Raise e)
      | Ok papers_info =>
          match record_papers papers_info papers_iterator with
          | Raise e => (Some items, Raise e)
          | Ok papers_info =>
              (Some (Dict.set slug (TopicDir (Some (Holds papers_info))) items),
               Ok (map short_id papers_iterator))
          end
      end
  end.

(** *** extract_info *)

Section Lookup.
(** [json.dumps(v, indent=2)] *)
Variable dumps_indent2 : json -> string.

Definition no_directory_message : string :=
  "The '" ++ PAPER_DIR ++ "' directory does not exist. No papers have been searched and stored yet.".

Definition not_found_message (paper_id : string) : string :=
  "There's no saved information related to paper ID '" ++ paper_id ++ "'.".

(** The loop over [os.listdir(PAPER_DIR)]. *)
Fixpoint scan_items (items : list (string * entry)) (paper_id : string) : result string :=
  match items with
  | [] => Ok (not_found_message paper_id)
  | (_, PlainFile) :: rest => scan_items rest paper_id
  | (_, TopicDir None) :: rest => scan_items rest paper_id
  | (_, TopicDir (Some Unparsable)) :: rest => scan_items rest paper_id
  | (_, TopicDir (Some (NotUtf8 reason))) :: rest => Raise (UnicodeDecodeError reason)
  | (_, TopicDir (Some (Holds papers_info))) :: rest =>
      found <- py_contains paper_id papers_info ;;
      if found : bool then
        record <- py_getitem papers_info paper_id ;;
        Ok (dumps_indent2 record)
      else scan_items rest paper_id
  end.

Definition extract_info (d : disk) (paper_id : string) : result string :=
  match d with
  | None => Ok no_directory_message
  | Some items => scan_items items paper_id
  end.
End Lookup.

(** *** get_topic_papers *)

Section Listing.
(** [str(v)] for a value that is not a [str], as an f-string formats it. *)
Variable str_other : json -> string.

Definition format (v : json) : string :=
  match v with
  | JStr s => s
  | _ => str_other v
  end.

Definition attribute_error (v : json) (name : string) : exn :=
  mk_exn AttributeError ("'" ++ type_name v ++ "' object has no attribute '" ++ name ++ "'").

(** [v.get(key, default)] *)
Definition py_get (v : json) (key : string) (default : json) : result json :=
  match v with
  | JObj members =>
      Ok (match Dict.lookup key members with Some x => x | None => default end)
  | _ => Raise (attribute_error v "get")
  end.

(** [len(v)] *)
Definition py_len (v : json) : result nat :=
  match v with
  | JObj members => Ok (List.length members)
  | JArr items => Ok (List.length items)
  | JStr s => Ok (String.length s)
  | _ => Raise (type_error ("object of type '" ++ type_name v ++ "' has no len()"))
  end.

(** [v.items()] *)
Definition py_items (v : json) : result (list (string * json)) :=
  match v with
  | JObj members => Ok members
  | _ => Raise (attribute_error v "items")
  end.

(** The items of a list as [str.join] reads them, from position [i] on. *)
Fixpoint str_items (i : nat) (items : list json) : result (list string) :=
  match items with
  | [] => Ok []
  | JStr s :: rest => strs <- str_items (S i) rest ;; Ok (s :: strs)
  | v :: _ =>
      Raise (type_error ("sequence item " ++ str_nat i ++ ": expected str instance, "
                           ++ type_name v ++ " found"))
  end.

Fixpoint chars (s : string) : list string :=
  match s with
  | EmptyString => []
  | String c rest => String c EmptyString :: chars rest
  end.

(** [sep.join(v)] *)
Definition py_join (sep : string) (v : json) : result string :=
  match v with
  | JArr items => strs <- str_items 0 items ;; Ok (PyStr.join sep strs)
  | JStr s => Ok (PyStr.join sep (chars s))
  | JObj members => Ok (PyStr.join sep (Dict.keys members))
  | _ => Raise (type_error "can only join an iterable")
  end.

(** [v[:n]]; a [dict] refuses the slice as a key ([TypeError] before
    Python 3.12). *)
Definition py_slice_to (n : nat) (v : json) : result json :=
  match v with
  | JStr s => Ok (JStr (PyStr.take n s))
  | JArr items => Ok (JArr (firstn n items))
  | JObj _ => Raise (type_error "unhashable type: 'slice'")
  | _ => Raise (type_error ("'" ++ type_name v ++ "' object is not subscriptable"))
  end.

Definition topic_title (topic : string) : string :=
  PyStr.title (PyStr.replace "-" " " (PyStr.replace "_" " " topic)).

(** The lines under [### Summary] of one paper. *)
Definition summary_section (summary : json) : result string :=
  shown <- py_slice_to 500 summary ;;
  Ok ("### Summary" ++ nl ++ format shown ++ "..." ++ nl ++ nl).

(** The body of the loop over [papers_data.items()]. *)
Definition paper_block (paper_id : string) (paper_info : json) : result string :=
  title <- py_get paper_info "title" (JStr "N/A") ;;
  authors <- py_get paper_info "authors" (JArr []) ;;
  authors_text <- (if truthy authors then py_join ", " authors else Ok "N/A") ;;
  published <- py_get paper_info "published" (JStr "N/A") ;;
  pdf_url <- py_get paper_info "pdf_url" (JStr "") ;;
  summary <- py_get paper_info "summary" (JStr "No summary available.") ;;
  summary_lines <- summary_section summary ;;
  Ok ("## " ++ format title ++ nl
      ++ "- **Paper ID**: " ++ paper_id ++ nl
      ++ "- **Authors**: " ++ authors_text ++ nl
      ++ "- **Published**: " ++ format published ++ nl
      ++ "- **PDF URL**: [" ++ format pdf_url ++ "](" ++ format pdf_url ++ ")" ++ nl ++ nl
      ++ summary_lines
      ++ "---" ++ nl ++ nl).

Fixpoint paper_blocks (items : list (string * json)) : result string :=
  match items with
  | [] => Ok ""
  | (paper_id, paper_info) :: rest =>
      block <- paper_block paper_id paper_info ;;
      blocks <- paper_blocks rest ;;
      Ok (block ++ blocks)
  end.

(** The [try] block once [json.load] has returned [papers_data]. *)
Definition render_topic (topic : string) (papers_data : json) : result string :=
  let content := "# Papers on " ++ topic_title topic ++ nl ++ nl in
  if negb (truthy papers_data) then
    Ok (content ++ "No paper information found in this topic folder." ++ nl)
  else
    total <- py_len papers_data ;;
    items <- py_items papers_data ;;
    blocks <- paper_blocks items ;;
    Ok (content ++ "Total papers: " ++ str_nat total ++ nl ++ nl ++ blocks).

Definition get_topic_papers (d : disk) (topic : string) : string :=
  match papers_file d topic with
  | None =>
      "# No papers found for topic folder: " ++ topic ++ nl ++ nl
      ++ "Ensure the folder exists and contains a 'papers_info.json' file. "
      ++ "You might need to use the 'search_papers' tool first for the original topic name."
  | Some Unparsable =>
      "# Error reading papers data for topic folder " ++ topic ++ nl ++ nl
      ++ "The 'papers_info.json' file might be corrupted."
  | Some (NotUtf8 reason) =>
      "# An unexpected error occurred while retrieving papers for topic folder "
      ++ topic ++ ": " ++ exn_str (UnicodeDecodeError reason)
  | Some (Holds papers_data) =>
      match render_topic topic papers_data with
      | Ok content => content
      | Raise e =>
          "# An unexpected error occurred while retrieving papers for topic folder "
          ++ topic ++ ": " ++ exn_str e
      end
  end.
End Listing.

(** *** get_available_folders *)

(** [sorted(names)]: the names in ascending order, compared character by
    character. *)
Fixpoint insert_sorted (name : string) (names : list string) : list string :=
  match names with
  | [] => [name]
  | n :: rest =>
      if String.leb name n then name :: n :: rest else n :: insert_sorted name rest
  end.

Fixpoint sorted (names : list string) : list string :=
  match names with
  | [] => []
  | n :: rest => insert_sorted n (sorted rest)
  end.

(** The loop over [os.listdir(PAPER_DIR)] that collects [folders]. *)
Fixpoint topic_folders (items : list (string * entry)) : list string :=
  match items with
  | [] => []
  | (topic_dir, TopicDir (Some _)) :: rest => topic_dir :: topic_folders rest
  | _ :: rest => topic_folders rest
  end.

Fixpoint folder_lines (folders : list string) : string :=
  match folders with
  | [] => ""
  | folder_name :: rest => "- " ++ folder_name ++ nl ++ folder_lines rest
  end.

Definition folders_heading : string :=
  "# Available Topics (Folders with paper data)" ++ nl ++ nl.

Definition folders_usage : string :=
  nl ++ "Use @papers://{topic_folder_name} to access papers in that topic." ++ nl.

Definition no_folders_text : string :=
  "No topic folders with paper data found." ++ nl
  ++ "You can try using the 'search_papers' tool to populate topics." ++ nl.

Definition get_available_folders (d : disk) : string :=
  let folders :=
    match d with
    | Some items => topic_folders items
    | None => []
    end in
  match folders with
  | _ :: _ => folders_heading ++ folder_lines (sorted folders) ++ folders_usage
  | [] => folders_heading ++ no_folders_text
  end.

(** *** calculator *)

Section Calculator.
(** [eval] and [str] are Python's own: [py_eval] is [eval(expression)]
    on a value type of its choice, [py_str] is [str(result)]; either
    may raise. *)
Variable value : Type.
Variable py_eval : string -> result value.
Variable py_str : value -> result string.

Definition allowed_chars : string := "0123456789+-*/. ()".

Definition all_allowed (expression : string) : bool :=
  PyStr.forall_chars (fun char => PyStr.has_char char allowed_chars) expression.

Definition calculator (expression : string) : result string :=
  try_except
    (if negb (all_allowed expression) then Ok "Error: Invalid characters in expression."
     else (result <- py_eval expression ;; py_str result))
    (fun e => Ok ("Error evaluating expression: " ++ exn_str e)).
End Calculator.

(** *** get_current_datetime *)

(** A naive [datetime.datetime], as [datetime.now()] returns it. *)
Record datetime := {
  year : nat; month : nat; day : nat;
  hour : nat; minute : nat; second : nat; microsecond : nat
}.

Fixpoint zeros (n : nat) : string :=
  match n with
  | O => EmptyString
  | S n' => String "0" (zeros n')
  end.

(** [n] in decimal, padded with zeros to [width] digits. *)
Definition zero_pad (width n : nat) : string :=
  let digits := str_nat n in zeros (width - String.length digits) ++ digits.

(** [now.isoformat()] *)
Definition isoformat (now : datetime) : string :=
  zero_pad 4 (year now) ++ "-" ++ zero_pad 2 (month now) ++ "-" ++ zero_pad 2 (day now)
  ++ "T" ++ zero_pad 2 (hour now) ++ ":" ++ zero_pad 2 (minute now)
  ++ ":" ++ zero_pad 2 (second now)
  ++ (if Nat.eqb (microsecond now) 0 then "" else "." ++ zero_pad 6 (microsecond now)).

Section Clock.
(** [now.strftime(format_str)], the C library's. *)
Variable strftime : datetime -> string -> result string.

Definition format_error_message (e : exn) : string :=
  "Error formatting date: " ++ exn_str e ++ ". Using default format.".

(** [get_current_datetime(format_str)] at the time [now]. *)
Definition get_current_datetime (now : datetime) (format_str : option string)
  : result string :=
  match format_str with
  | Some f =>
      if negb (String.eqb f "") then
        try_except (strftime now f) (fun e => Ok (format_error_message e))
      else Ok (isoformat now)
  | None => Ok (isoformat now)
  end.
End Clock.

End CommonTools.

(** ** generator_mcp_config_server.py *)

Module GeneratorConfigServer.

(** The values the [Generator] instance and its attributes can be: JSON
    data, a [pathlib.Path], or an object of some class with attributes of
    its own.  [generator_singleton] is such a value; [PNone] when the
    import or the construction of the [Generator] failed. *)
Inductive pyval :=
| PNone
| PBool (b : bool)
| PInt (z : Z)
| PFloat (f : float)
| PStr (s : string)
| PList (items : list pyval)
| PDict (members : Dict.t pyval)
| PPath (text : string)
| PObject (class_name : string) (attributes : Dict.t pyval).

(** [type(v).__name__] *)
Definition type_name (v : pyval) : string :=
  match v with
  | PNone => "NoneType"
  | PBool _ => "bool"
  | PInt _ => "int"
  | PFloat _ => "float"
  | PStr _ => "str"
  | PList _ => "list"
  | PDict _ => "dict"
  | PPath _ => "PosixPath"
  | PObject class_name _ => class_name
  end.

(** [bool(v)]; an object without [__bool__] and [__len__] is true. *)
Definition truthy (v : pyval) : bool :=
  match v with
  | PNone => false
  | PBool b => b
  | PInt z => negb (Z.eqb z 0)
  | PFloat f => negb (PrimFloat.eqb f PrimFloat.zero)
  | PStr s => negb (String.eqb s "")
  | PList items => match items with [] => false | _ :: _ => true end
  | PDict members => match members with [] => false | _ :: _ => true end
  | PPath _ => true
  | PObject _ _ => true
  end.

(** [len(v)]; an object without [__len__] has none. *)
Definition py_len (v : pyval) : result nat :=
  match v with
  | PStr s => Ok (String.length s)
  | PList items => Ok (List.length items)
  | PDict members => Ok (List.length members)
  | _ => Raise (mk_exn TypeError ("object of type '" ++ type_name v ++ "' has no len()"))
  end.

Definition instance_attributes (v : pyval) : Dict.t pyval :=
  match v with
  | PObject _ attributes => attributes
  | _ => []
  end.

(** [hasattr(v, name)] *)
Definition hasattr (v : pyval) (name : string) : bool :=
  Dict.mem name (instance_attributes v).

(** [v.name] *)
Definition getattr (v : pyval) (name : string) : result pyval :=
  match Dict.lookup name (instance_attributes v) with
  | Some x => Ok x
  | None =>
      Raise (mk_exn AttributeError
               ("'" ++ type_name v ++ "' object has no attribute '" ++ name ++ "'"))
  end.

Definition error_payload (text : string) : pyval := PDict [("error", PStr text)].

Definition not_initialized_payload : pyval :=
  error_payload "Generator instance is not available or not initialized.".

(** The guard both endpoints start with:
    [generator_singleton is None or not hasattr(generator_singleton, '_initialized')
     or not generator_singleton._initialized]. *)
Definition not_available (generator_singleton : pyval) : bool :=
  match generator_singleton with
  | PNone => true
  | _ =>
      match Dict.lookup "_initialized" (instance_attributes generator_singleton) with
      | None => true
      | Some flag => negb (truthy flag)
      end
  end.

Section Endpoints.
(** [str(v)] *)
Variable py_str : pyval -> string.

(** [json.loads(json.dumps(v, default=str))]: what JSON cannot hold goes
    through [str]. *)
Fixpoint json_copy (v : pyval) : pyval :=
  match v with
  | PList items => PList (map json_copy items)
  | PDict members => PDict (map (fun kv => (fst kv, json_copy (snd kv))) members)
  | PPath _ => PStr (py_str v)
  | PObject _ _ => PStr (py_str v)
  | _ => v
  end.

Fixpoint convert_to_serializable (obj : pyval) : pyval :=
  match obj with
  | PDict members =>
      PDict (map (fun kv => (fst kv, convert_to_serializable (snd kv))) members)
  | PList items => PList (map convert_to_serializable items)
  | PPath _ => PStr (py_str obj)
  | PObject _ _ => PStr (py_str obj)   (* json.dumps(obj) raises TypeError *)
  | _ => obj                            (* json.dumps(obj) succeeds *)
  end.

(** The [try] block of [get_generator_configuration]. *)
Definition configuration_snapshot (g : pyval) : result pyval :=
  main_config <- getattr g "main_config" ;;
  let main_config_serializable := convert_to_serializable (json_copy main_config) in
  model_config <- getattr g "model_config" ;;
  let model_config_serializable := convert_to_serializable (json_copy model_config) in
  default_embedding_model <- getattr g "default_embedding_model" ;;
  default_completion_model <- getattr g "default_completion_model" ;;
  default_reasoning_model <- getattr g "default_reasoning_model" ;;
  default_hf_embedding_model <- getattr g "default_hf_embedding_model" ;;
  default_hf_completion_model <- getattr g "default_hf_completion_model" ;;
  default_hf_reranker_model <- getattr g "default_hf_reranker_model" ;;
  default_hf_ocr_model <- getattr g "default_hf_ocr_model" ;;
  hf_model_dir <- getattr g "hf_model_dir" ;;
  let config_data :=
    PDict [ ("main_config", main_config_serializable);
            ("model_config", model_config_serializable);
            ("default_embedding_model", default_embedding_model);
            ("default_completion_model", default_completion_model);
            ("default_reasoning_model", default_reasoning_model);
            ("default_hf_embedding_model", default_hf_embedding_model);
            ("default_hf_completion_model", default_hf_completion_model);
            ("default_hf_reranker_model", default_hf_reranker_model);
            ("default_hf_ocr_model", default_hf_ocr_model);
            ("hf_model_dir", PStr (py_str hf_model_dir)) ] in
  Ok (json_copy config_data).

Definition get_generator_configuration (generator_singleton : pyval) : result pyval :=
  if not_available generator_singleton then Ok not_initialized_payload
  else
    try_except (configuration_snapshot generator_singleton)
      (fun e =>
         match exn_cls e with
         | AttributeError =>
             Ok (error_payload
                   ("Generator instance is missing an expected attribute: " ++ exn_str e))
         | _ =>
             Ok (error_payload ("Error accessing generator configuration: " ++ exn_str e))
         end).

(** [len(g.<cache>) if hasattr(g, '<cache>') else "N/A"] *)
Definition cache_size (g : pyval) (cache : string) : result pyval :=
  if hasattr g cache then
    (c <- getattr g cache ;; n <- py_len c ;; Ok (PInt (Z.of_nat n)))
  else Ok (PStr "N/A").

(** [type(g.<model>).__name__ if hasattr(g, '<model>') and g.<model> else "Not loaded"] *)
Definition model_status (g : pyval) (model : string) : result pyval :=
  if hasattr g model then
    (m <- getattr g model ;;
     Ok (PStr (if truthy m then type_name m else "Not loaded")))
  else Ok (PStr "Not loaded").

(** The [try] block of [get_generator_status]. *)
Definition status_snapshot (g : pyval) : result pyval :=
  embedding_cache_size <- cache_size g "embedding_model_cache" ;;
  completion_cache_size <- cache_size g "completion_model_cache" ;;
  hf_embedding_model_status <- model_status g "hf_embedding_model" ;;
  hf_completion_model_status <- model_status g "hf_completion_model" ;;
  initialized <- getattr g "_initialized" ;;
  last_cleanup_time <-
    (if hasattr g "_last_cleanup_time" then
       (t <- getattr g "_last_cleanup_time" ;; Ok (PStr (py_str t)))
     else Ok (PStr "N/A")) ;;
  mcp_client_manager_initialized <-
    (if hasattr g "mcp_client_manager" then
       (manager <- getattr g "mcp_client_manager" ;; getattr manager "_initialized")
     else Ok (PStr "N/A")) ;;
  mcp_client_available_tools_count <-
    (if hasattr g "mcp_client_manager" then
       (manager <- getattr g "mcp_client_manager" ;;
        tools <- getattr manager "available_tools" ;;
        n <- py_len tools ;;
        Ok (PInt (Z.of_nat n)))
     else Ok (PStr "N/A")) ;;
  let status_data :=
    PDict [ ("initialized", initialized);
            ("embedding_model_cache_size", embedding_cache_size);
            ("completion_model_cache_size", completion_cache_size);
            ("hf_embedding_model_loaded", hf_embedding_model_status);
            ("hf_completion_model_loaded", hf_completion_model_status);
            ("last_cleanup_time", last_cleanup_time);
            ("mcp_client_manager_initialized", mcp_client_manager_initialized);
            ("mcp_client_available_tools_count", mcp_client_available_tools_count) ] in
  Ok (json_copy status_data).

Definition get_generator_status (generator_singleton : pyval) : result pyval :=
  if not_available generator_singleton then Ok not_initialized_payload
  else
    try_except (status_snapshot generator_singleton)
      (fun e =>
         match exn_cls e with
         | AttributeError =>
             Ok (error_payload
                   ("Generator instance is missing an expected attribute for status: "
                    ++ exn_str e))
         | _ => Ok (error_payload ("Error accessing generator status: " ++ exn_str e))
         end).
End Endpoints.

End GeneratorConfigServer.

(** * Properties of the common tools *)

Module CommonToolsProperties.
Import CommonTools.

(** ** The merge [search_papers] performs *)

(** The mapping after the loop, when it started from a mapping. *)
Definition merged (members : Dict.t json) (papers : list paper) : Dict.t json :=
  fold_left (fun acc p => Dict.set (short_id p) (paper_info_entry p) acc) papers members.

(** The last result of the collaborator that carries the identifier [k]. *)
Fixpoint latest (k : string) (papers : list paper) : option paper :=
  match papers with
  | [] => None
  | p :: rest =>
      match latest k rest with
      | Some q => Some q
      | None => if String.eqb k (short_id p) then Some p else None
      end
  end.

(** [papers/<slug>] exists and is not a directory. *)
Definition blocked (d : disk) (slug : string) : bool :=
  match Dict.lookup slug (makedirs_root d) with
  | Some PlainFile => true
  | _ => false
  end.

Lemma record_papers_mapping (members : Dict.t json) (papers : list paper) :
  record_papers (JObj members) papers = Ok (JObj (merged members papers)).
Proof.
  revert members. induction papers as [|p rest IH]; intros members; simpl.
  - reflexivity.
  - apply IH.
Qed.



Lemma merged_snoc (members : Dict.t json) (papers : list paper) (p : paper) :
  merged members (papers ++ [p])%list
  = Dict.set (short_id p) (paper_info_entry p) (merged members papers).
Proof. unfold merged. rewrite fold_left_app. reflexivity. Qed.

Lemma lookup_merged (k : string) (members : Dict.t json) (papers : list paper) :
  Dict.lookup k (merged members papers)
  = match latest k papers with
    | Some p => Some (paper_info_entry p)
    | None => Dict.lookup k members
    end.
Proof.
  revert members. induction papers as [|p rest IH]; intros members; simpl.
  - reflexivity.
  - unfold merged in *. simpl. rewrite IH.
    destruct (latest k rest); [reflexivity|].
    rewrite Dict.lookup_set. destruct (String.eqb k (short_id p)); reflexivity.
Qed.

Lemma latest_In (k : string) (papers : list paper) (p : paper) :
  latest k papers = Some p -> In p papers /\ short_id p = k.
Proof.
  induction papers as [|q rest IH]; simpl; [discriminate|].
  destruct (latest k rest) as [r|].
  - intros [= ->]. destruct IH as [? ?]; auto.
  - destruct (String.eqb k (short_id q)) eqn:E; [|discriminate].
    intros [= ->]. apply String.eqb_eq in E. auto.
Qed.

Lemma latest_None (k : string) (papers : list paper) :
  latest k papers = None <-> ~ In k (map short_id papers).
Proof.
  induction papers as [|q rest IH]; simpl; [tauto|].
  destruct (latest k rest) as [r|].
  - split; [discriminate|]. intros H. exfalso. apply H. right.
    destruct (in_dec string_dec k (map short_id rest)) as [Hin|Hout]; [exact Hin|].
    apply IH in Hout. discriminate.
  - destruct (String.eqb k (short_id q)) eqn:E.
    + apply String.eqb_eq in E. split; [discriminate|]. intros H. exfalso. auto.
    + apply String.eqb_neq in E. split; [|reflexivity].
      intros _ [H|H]; [congruence|]. apply IH in H; auto.
Qed.

(** With distinct identifiers, the last result under an identifier is the
    only one. *)
Lemma latest_unique (papers : list paper) (p : paper) :
  NoDup (map short_id papers) -> In p papers -> latest (short_id p) papers = Some p.
Proof.
  induction papers as [|q rest IH]; simpl; [tauto|].
  intros Hnd Hin. inversion Hnd as [|? ? Hout Hrest]; subst.
  destruct Hin as [->|Hin].
  - apply latest_None in Hout. rewrite Hout, String.eqb_refl. reflexivity.
  - rewrite (IH Hrest Hin). reflexivity.
Qed.

Lemma mem_merged (k : string) (members : Dict.t json) (papers : list paper) :
  Dict.mem k (merged members papers)
  = Dict.mem k members || existsb (fun p => String.eqb k (short_id p)) papers.
Proof.
  revert members. induction papers as [|p rest IH]; intros members; simpl.
  - rewrite orb_false_r. reflexivity.
  - unfold merged in *. simpl. rewrite IH, Dict.mem_set.
    destruct (String.eqb k (short_id p)), (Dict.mem k members); reflexivity.
Qed.

(** An assignment made before the loop, to a mapping that already has every
    key the loop assigns, can be made after it (with some value). *)
Lemma merged_absorbs (papers : list paper) (members : Dict.t json) (k : string) (v : json) :
  (forall p, In p papers -> Dict.mem (short_id p) members = true) ->
  exists v', merged (Dict.set k v members) papers = Dict.set k v' (merged members papers).
Proof.
  revert members v. induction papers as [|p rest IH]; intros members v Hall.
  - exists v. reflexivity.
  - assert (Hrest : forall x, forall q, In q rest ->
              Dict.mem (short_id q) (Dict.set (short_id p) x members) = true).
    { intros x q Hq. rewrite Dict.mem_set, (Hall q) by (right; exact Hq).
      apply orb_true_r. }
    change (merged (Dict.set k v members) (p :: rest))
      with (merged (Dict.set (short_id p) (paper_info_entry p) (Dict.set k v members)) rest).
    change (merged members (p :: rest))
      with (merged (Dict.set (short_id p) (paper_info_entry p) members) rest).
    destruct (string_dec k (short_id p)) as [Heq|Hne].
    + subst k. rewrite Dict.set_set.
      destruct (IH (Dict.set (short_id p) (paper_info_entry p) members)
                  (paper_info_entry p) (Hrest _)) as [v' Hv'].
      rewrite Dict.set_set in Hv'. exists v'. exact Hv'.
    + rewrite <- (Dict.set_comm k (short_id p)) by (auto using in_eq).
      apply IH, Hrest.
Qed.

(** Running the loop again on its own result changes nothing. *)
Lemma merged_idempotent (members : Dict.t json) (papers : list paper) :
  merged (merged members papers) papers = merged members papers.
Proof.
  induction papers as [|p papers IH] using rev_ind.
  - reflexivity.
  - rewrite !merged_snoc.
    destruct (merged_absorbs papers (merged members papers)
                (short_id p) (paper_info_entry p)) as [v' Hv'].
    { intros q Hq. rewrite mem_merged. apply orb_true_iff. right.
      apply existsb_exists. exists q. split; [exact Hq|apply String.eqb_refl]. }
    rewrite Hv', Dict.set_set, IH. reflexivity.
Qed.

Lemma record_papers_idempotent (v v' : json) (papers : list paper) :
  record_papers v papers = Ok v' -> record_papers v' papers = Ok v'.
Proof.
  destruct papers as [|p rest].
  - intros [= ->]. reflexivity.
  - destruct v; try discriminate.
    rewrite record_papers_mapping. intros H.
    assert (Hv : v' = JObj (merged members (p :: rest))) by congruence.
    rewrite Hv, record_papers_mapping, merged_idempotent. reflexivity.
Qed.

Lemma papers_file_set (items : Dict.t entry) (slug name : string) (e : entry) :
  papers_file (Some (Dict.set slug e items)) name
  = if String.eqb name slug
    then match e with TopicDir f => f | PlainFile => None end
    else papers_file (Some items) name.
Proof.
  unfold papers_file. rewrite Dict.lookup_set.
  destruct (String.eqb name slug); reflexivity.
Qed.

(** [search_papers] by the state of the topic's directory. *)
Lemma search_papers_in_directory
  (papers : list paper) (d : disk) (topic : string) (f : option file) :
  Dict.lookup (topic_slug topic) (makedirs_root d) = Some (TopicDir f) ->
  search_papers papers d topic
  = match load_papers_info f with
    | Raise e => (Some (makedirs_root d), Raise e)
    | Ok loaded =>
        match record_papers loaded papers with
        | Raise e => (Some (makedirs_root d), Raise e)
        | Ok papers_info =>
            (Some (Dict.set (topic_slug topic) (TopicDir (Some (Holds papers_info)))
                     (makedirs_root d)),
             Ok (map short_id papers))
        end
    end.
Proof.
  intros E. unfold search_papers, makedirs_topic, papers_file.
  rewrite E. simpl. rewrite E. reflexivity.
Qed.

Lemma search_papers_new_directory (papers : list paper) (d : disk) (topic : string) :
  Dict.lookup (topic_slug topic) (makedirs_root d) = None ->
  search_papers papers d topic
  = (Some (Dict.set (topic_slug topic) (TopicDir (Some (Holds (JObj (merged [] papers)))))
             (makedirs_root d)),
     Ok (map short_id papers)).
Proof.
  intros E. unfold search_papers, makedirs_topic.
  rewrite E. rewrite papers_file_set, String.eqb_refl. cbn [load_papers_info].
  rewrite record_papers_mapping, Dict.set_set. reflexivity.
Qed.

Lemma search_papers_blocked (papers : list paper) (d : disk) (topic : string) :
  Dict.lookup (topic_slug topic) (makedirs_root d) = Some PlainFile ->
  fst (search_papers papers d topic) = Some (makedirs_root d)
  /\ exists e, snd (search_papers papers d topic) = Raise e /\ exn_cls e = FileExistsError.
Proof.
  intros E. unfold search_papers, makedirs_topic. rewrite E. simpl.
  split; [reflexivity|]. eexists. split; reflexivity.
Qed.

Lemma papers_file_lookup (d : disk) (name : string) (f : file) :
  papers_file d name = Some f ->
  exists items, d = Some items /\ Dict.lookup name items = Some (TopicDir (Some f)).
Proof.
  unfold papers_file. destruct d as [items|]; [|discriminate].
  destruct (Dict.lookup name items) as [[|g]|] eqn:E; try discriminate.
  intros ->. exists items. auto.
Qed.

(** C1.  Merge correctness of [search_papers]: when the partition file of
    the topic parses to a mapping [members], the call returns the fetched
    identifiers and leaves the file holding the merged mapping, in which an
    identifier that was not fetched keeps its prior record, every fetched
    identifier maps to the record just fetched for it (the last one, if the
    collaborator repeats an identifier), no key is duplicated, and the
    other partitions are untouched. *)
Theorem search_papers_merges_into_partition
  (papers : list paper) (d : disk) (topic : string) (members : Dict.t json) :
  papers_file d (topic_slug topic) = Some (Holds (JObj members)) ->
  let after := fst (search_papers papers d topic) in
  let stored := merged members papers in
  snd (search_papers papers d topic) = Ok (map short_id papers)
  /\ papers_file after (topic_slug topic) = Some (Holds (JObj stored))
  /\ (forall k, ~ In k (map short_id papers) -> Dict.lookup k stored = Dict.lookup k members)
  /\ (forall k, In k (map short_id papers) ->
        exists p, latest k papers = Some p /\ In p papers /\ short_id p = k
                  /\ Dict.lookup k stored = Some (paper_info_entry p))
  /\ (NoDup (map short_id papers) ->
        forall p, In p papers -> Dict.lookup (short_id p) stored = Some (paper_info_entry p))
  /\ (NoDup (Dict.keys members) -> NoDup (Dict.keys stored))
  /\ (forall name, name <> topic_slug topic -> papers_file after name = papers_file d name).
Proof.
  intros H after stored.
  destruct (papers_file_lookup _ _ _ H) as (items & -> & E).
  assert (Hrun : search_papers papers (Some items) topic
                 = (Some (Dict.set (topic_slug topic) (TopicDir (Some (Holds (JObj stored))))
                            items),
                    Ok (map short_id papers))).
  { rewrite (search_papers_in_directory papers (Some items) topic _ E).
    cbn [load_papers_info]. rewrite record_papers_mapping. reflexivity. }
  subst after. rewrite Hrun. simpl fst. simpl snd.
  repeat split.
  - rewrite papers_file_set, String.eqb_refl. reflexivity.
  - intros k Hk. subst stored. rewrite lookup_merged.
    apply latest_None in Hk. rewrite Hk. reflexivity.
  - intros k Hk. subst stored.
    destruct (latest k papers) as [p|] eqn:L.
    + exists p. destruct (latest_In _ _ _ L) as [Hin Hid].
      rewrite lookup_merged, L. auto.
    + apply latest_None in L. contradiction.
  - intros Hnd p Hin. subst stored.
    rewrite lookup_merged, (latest_unique papers p Hnd Hin). reflexivity.
  - subst stored. clear. revert members.
    induction papers as [|p rest IH]; intros members Hnd; [exact Hnd|].
    apply IH, Dict.NoDup_keys_set, Hnd.
  - intros name Hne. rewrite papers_file_set.
    apply String.eqb_neq in Hne. rewrite Hne. reflexivity.
Qed.

(** C2.  Ingestion is idempotent: a second run of [search_papers] on the
    disk the first run left, with the collaborator returning the same
    records, leaves that disk as it is and has the same outcome, so no
    entry is duplicated and no stored record changes. *)
Theorem search_papers_idempotent (papers : list paper) (d : disk) (topic : string) :
  search_papers papers (fst (search_papers papers d topic)) topic
  = search_papers papers d topic.
Proof.
  destruct (Dict.lookup (topic_slug topic) (makedirs_root d)) as [[|f]|] eqn:E.
  - unfold search_papers at 2 3. unfold makedirs_topic. rewrite E. simpl fst.
    unfold search_papers, makedirs_topic. simpl makedirs_root. rewrite E. reflexivity.
  - rewrite (search_papers_in_directory papers d topic f E).
    destruct (load_papers_info f) as [loaded|e] eqn:L.
    + destruct (record_papers loaded papers) as [v|e] eqn:R; simpl fst.
      * rewrite (search_papers_in_directory papers _ topic (Some (Holds v))).
        -- simpl makedirs_root. cbn [load_papers_info].
           rewrite (record_papers_idempotent _ _ _ R), Dict.set_set. reflexivity.
        -- simpl makedirs_root. rewrite Dict.lookup_set, String.eqb_refl. reflexivity.
      * rewrite (search_papers_in_directory papers _ topic f) by exact E.
        simpl makedirs_root. rewrite L, R. reflexivity.
    + simpl fst. rewrite (search_papers_in_directory papers _ topic f) by exact E.
      simpl makedirs_root. rewrite L. reflexivity.
  - rewrite (search_papers_new_directory papers d topic E). simpl fst.
    rewrite (search_papers_in_directory papers _ topic
               (Some (Holds (JObj (merged [] papers))))).
    + simpl makedirs_root. cbn [load_papers_info].
      rewrite record_papers_mapping, merged_idempotent, Dict.set_set. reflexivity.
    + simpl makedirs_root. rewrite Dict.lookup_set, String.eqb_refl. reflexivity.
Qed.



(** *** The merge on a partition holding A and B *)

Definition sample_paper (id title_text : string) : paper :=
  {| short_id := id; title := title_text; authors := ["Ada Lovelace"];
     summary := "An abstract."; pdf_url := "http://arxiv.org/pdf/" ++ id;
     published := Some "2023-03-15" |}.

Definition paper_A : paper := sample_paper "A" "First paper".
Definition paper_B : paper := sample_paper "B" "Second paper".
Definition paper_B' : paper := sample_paper "B" "Second paper, revised".
Definition paper_C : paper := sample_paper "C" "Third paper".

Definition disk_with_A_B : disk :=
  Some [("quantum_computing",
         TopicDir (Some (Holds (JObj [("A", paper_info_entry paper_A);
                                      ("B", paper_info_entry paper_B)]))))].

Lemma search_papers_merges_A_B_with_B'_C :
  snd (search_papers [paper_B'; paper_C] disk_with_A_B "Quantum Computing") = Ok ["B"; "C"]
  /\ papers_file (fst (search_papers [paper_B'; paper_C] disk_with_A_B "Quantum Computing"))
       "quantum_computing"
     = Some (Holds (JObj [("A", paper_info_entry paper_A);
                          ("B", paper_info_entry paper_B');
                          ("C", paper_info_entry paper_C)])).
Proof.
  pose proof (search_papers_merges_into_partition [paper_B'; paper_C] disk_with_A_B
                "Quantum Computing" _ eq_refl) as H.
  cbv zeta in H. destruct H as (Hids & Hfile & _).
  split; [exact Hids|exact Hfile].
Defined.

(** *** No result on a partition file that cannot be read, and on none *)

Definition disk_with_unparsable_file : disk :=
  Some [("graph_theory", TopicDir (Some Unparsable))].

Definition invalid_start_byte : string :=
  "'utf-8' codec can't decode byte 0xff in position 0: invalid start byte".

Definition disk_with_undecodable_file : disk :=
  Some [("graph_theory", TopicDir (Some (NotUtf8 invalid_start_byte)))].

(** C4.  [search_papers] at the failing input: the collaborator returns no
    result for "Graph Theory" and [papers/graph_theory/papers_info.json]
    holds the byte 0xff, which is not UTF-8.  The call raises
    [UnicodeDecodeError] and writes nothing, where it returns the empty
    list on a file that is text but not JSON. *)
Lemma search_papers_no_results_raises_on_undecodable_file :
  search_papers [] disk_with_undecodable_file "Graph Theory"
  = (disk_with_undecodable_file, Raise (UnicodeDecodeError invalid_start_byte))
  /\ snd (search_papers [] disk_with_unparsable_file "Graph Theory") = Ok [].
Proof.
  split; reflexivity.
Qed.


(** ** The scan [extract_info] performs *)

Definition is_mapping (v : json) : bool :=
  match v with JObj _ => true | _ => false end.

(** An item the scan gets past: it is no directory, or has no partition
    file, or its file is text that is not JSON, or its file holds a
    mapping.  A partition file that is not UTF-8, or that holds another
    value than a mapping, is none. *)
Definition holds_mapping (e : entry) : bool :=
  match e with
  | TopicDir (Some (Holds v)) => is_mapping v
  | TopicDir (Some (NotUtf8 _)) => false
  | _ => true
  end.

Definition partitions_are_mappings (d : disk) : bool :=
  match d with
  | None => true
  | Some items => forallb holds_mapping (map snd items)
  end.

(** The partition of this item has [paper_id] as a key. *)
Definition has_paper (paper_id : string) (e : entry) : bool :=
  match e with
  | TopicDir (Some (Holds (JObj members))) => Dict.mem paper_id members
  | _ => false
  end.

Section LookupProperties.
Variable dumps_indent2 : json -> string.

Lemma scan_items_skips (items rest : list (string * entry)) (paper_id : string) :
  forallb holds_mapping (map snd items) = true ->
  existsb (has_paper paper_id) (map snd items) = false ->
  scan_items dumps_indent2 (items ++ rest)%list paper_id
  = scan_items dumps_indent2 rest paper_id.
Proof.
  induction items as [|[name e] more IH]; simpl; [reflexivity|].
  intros Hwf Hno.
  apply andb_true_iff in Hwf as [He Hmore].
  apply orb_false_iff in Hno as [Hne Hnmore].
  specialize (IH Hmore Hnmore).
  destruct e as [|[[|reason|v]|]]; try exact IH; [discriminate He|].
  destruct v; try discriminate He.
  simpl in Hne. simpl. rewrite Hne. exact IH.
Qed.

Lemma scan_items_finds (name : string) (members : Dict.t json)
      (rest : list (string * entry)) (paper_id : string) (record : json) :
  Dict.lookup paper_id members = Some record ->
  scan_items dumps_indent2 ((name, TopicDir (Some (Holds (JObj members)))) :: rest) paper_id
  = Ok (dumps_indent2 record).
Proof.
  intros H. simpl. unfold Dict.mem. rewrite H. reflexivity.
Qed.

(** An unparsable partition file is passed over: the scan gives what it
    gives without that item. *)
Lemma scan_items_unparsable (before after : list (string * entry))
      (name paper_id : string) :
  scan_items dumps_indent2 (before ++ (name, TopicDir (Some Unparsable)) :: after)%list
    paper_id
  = scan_items dumps_indent2 (before ++ after)%list paper_id.
Proof.
  induction before as [|[n e] more IH]; simpl; [reflexivity|].
  destruct e as [|[[|reason|v]|]]; try exact IH; [reflexivity|].
  destruct (py_contains paper_id v) as [[|]|err]; simpl; try reflexivity.
  exact IH.
Qed.

(** X24.  On a disk where every partition file is text that is not JSON
    or holds a mapping, [extract_info] returns the serialized record of the
    first partition, in listing order, that has [paper_id] as a key; it
    returns a not-found message when no partition has it, and the
    no-directory message when [PAPER_DIR] is absent; a partition file that
    is not JSON is passed over, before or after the match. *)
Theorem extract_info_first_match (d : disk) (paper_id : string) :
  partitions_are_mappings d = true ->
  (d = None -> extract_info dumps_indent2 d paper_id = Ok no_directory_message)
  /\ (forall items, d = Some items ->
        existsb (has_paper paper_id) (map snd items) = false ->
        extract_info dumps_indent2 d paper_id = Ok (not_found_message paper_id))
  /\ (forall before name members after record,
        d = Some (before ++ (name, TopicDir (Some (Holds (JObj members)))) :: after)%list ->
        existsb (has_paper paper_id) (map snd before) = false ->
        Dict.lookup paper_id members = Some record ->
        extract_info dumps_indent2 d paper_id = Ok (dumps_indent2 record))
  /\ (forall before name after,
        d = Some (before ++ (name, TopicDir (Some Unparsable)) :: after)%list ->
        extract_info dumps_indent2 d paper_id
        = extract_info dumps_indent2 (Some (before ++ after)%list) paper_id).
Proof.
  intros Hwf. repeat split.
  - intros ->. reflexivity.
  - intros items -> Hno. simpl in *.
    rewrite <- (app_nil_r items), scan_items_skips by assumption. reflexivity.
  - intros before name members after record -> Hno Hrec. simpl in *.
    rewrite map_app, forallb_app in Hwf. apply andb_true_iff in Hwf as [Hb _].
    rewrite scan_items_skips by assumption.
    apply scan_items_finds, Hrec.
  - intros before name after ->. simpl. apply scan_items_unparsable.
Qed.
End LookupProperties.

(** *** Two partitions with an unparsable one between them *)

Definition disk_with_X_and_Y : disk :=
  Some [("notes.txt", PlainFile);
        ("topic1", TopicDir (Some (Holds (JObj [("X", paper_info_entry paper_A)]))));
        ("scratch", TopicDir None);
        ("broken", TopicDir (Some Unparsable));
        ("topic2", TopicDir (Some (Holds (JObj [("Y", paper_info_entry paper_C)]))))].

(** A stand-in for [json.dumps(v, indent=2)] on the sample disks: the title
    of the record. *)
Definition title_of (v : json) : string :=
  match v with
  | JObj members =>
      match Dict.lookup "title" members with
      | Some (JStr s) => s
      | _ => "?"
      end
  | _ => "?"
  end.

Lemma extract_info_finds_Y_and_misses_Z :
  extract_info title_of disk_with_X_and_Y "Y" = Ok "Third paper"
  /\ extract_info title_of disk_with_X_and_Y "Z" = Ok (not_found_message "Z").
Proof.
  pose proof (extract_info_first_match title_of disk_with_X_and_Y "Y" eq_refl)
    as (_ & _ & Hfound & _).
  pose proof (extract_info_first_match title_of disk_with_X_and_Y "Z" eq_refl)
    as (_ & Hmissing & _).
  split.
  - exact (Hfound [("notes.txt", PlainFile);
                   ("topic1", TopicDir (Some (Holds (JObj [("X", paper_info_entry paper_A)]))));
                   ("scratch", TopicDir None);
                   ("broken", TopicDir (Some Unparsable))]
             "topic2" _ [] _ eq_refl eq_refl eq_refl).
  - exact (Hmissing _ eq_refl eq_refl).
Defined.

Definition disk_with_null_file : disk :=
  Some [("graph_theory", TopicDir (Some (Holds JNull)))].

(** *** A partition the scan cannot get past, before the match *)

Definition partition_with_the_paper : string * entry :=
  ("llm", TopicDir (Some (Holds (JObj [("2303.08774v2", paper_info_entry paper_A)])))).

Definition disk_with_null_before_match : disk :=
  Some [("graph_theory", TopicDir (Some (Holds JNull))); partition_with_the_paper].

Definition disk_with_undecodable_before_match : disk :=
  Some [("graph_theory", TopicDir (Some (NotUtf8 invalid_start_byte)));
        partition_with_the_paper].

Definition disk_with_unparsable_before_match : disk :=
  Some [("graph_theory", TopicDir (Some Unparsable)); partition_with_the_paper].

(** C3.  [extract_info] at the failing inputs: the partition [llm] holds
    the record of "2303.08774v2", and the partition listed before it has a
    file that holds [null], or a file that is not UTF-8.  The scan does not
    skip that partition: the call raises [TypeError], or
    [UnicodeDecodeError], and the record is not returned, where it is
    returned when the file before it is text that is not JSON. *)
Lemma extract_info_aborts_on_unreadable_partition :
  extract_info title_of disk_with_null_before_match "2303.08774v2"
  = Raise (mk_exn TypeError "argument of type 'NoneType' is not iterable")
  /\ extract_info title_of disk_with_undecodable_before_match "2303.08774v2"
     = Raise (UnicodeDecodeError invalid_start_byte)
  /\ extract_info title_of disk_with_unparsable_before_match "2303.08774v2"
     = Ok "First paper"
  /\ extract_info title_of disk_with_null_file "2303.08774v2"
     = Raise (mk_exn TypeError "argument of type 'NoneType' is not iterable").
Proof. repeat split; reflexivity. Qed.

(** ** The topic listing *)

Definition is_separator (c : ascii) : bool :=
  Ascii.eqb c "_" || Ascii.eqb c "-".



Section ListingProperties.
Variable str_other : json -> string.

Lemma str_items_of_strings (i : nat) (names : list string) :
  str_items i (map JStr names) = Ok names.
Proof.
  revert i. induction names as [|a rest IH]; intros i; simpl; [reflexivity|].
  rewrite IH. reflexivity.
Qed.

(** The block of a record that [search_papers] stored. *)
Lemma paper_block_of_entry (paper_id : string) (p : paper) :
  paper_block str_other paper_id (paper_info_entry p)
  = Ok ("## " ++ title p ++ nl
        ++ "- **Paper ID**: " ++ paper_id ++ nl
        ++ "- **Authors**: "
        ++ (match authors p with [] => "N/A" | _ :: _ => PyStr.join ", " (authors p) end) ++ nl
        ++ "- **Published**: "
        ++ (match published p with Some day => day | None => "N/A" end) ++ nl
        ++ "- **PDF URL**: [" ++ pdf_url p ++ "](" ++ pdf_url p ++ ")" ++ nl ++ nl
        ++ ("### Summary" ++ nl ++ PyStr.take 500 (summary p) ++ "..." ++ nl ++ nl)
        ++ "---" ++ nl ++ nl).
Proof.
  unfold paper_block, paper_info_entry, py_get, summary_section. simpl.
  destruct (authors p) as [|a rest] eqn:E; simpl; [reflexivity|].
  change (JStr a :: map JStr rest) with (map JStr (a :: rest)).
  rewrite str_items_of_strings. reflexivity.
Qed.

Definition stored_entry (kv : string * json) : Prop :=
  exists p, snd kv = paper_info_entry p.

Lemma stored_entries_set (k : string) (p : paper) (members : Dict.t json) :
  Forall stored_entry members ->
  Forall stored_entry (Dict.set k (paper_info_entry p) members).
Proof.
  induction members as [|[k0 v0] rest IH]; simpl; intros H.
  - constructor; [exists p; reflexivity|constructor].
  - inversion H; subst. destruct (String.eqb k k0).
    + constructor; [exists p; reflexivity|assumption].
    + constructor; [assumption|apply IH; assumption].
Qed.

Lemma stored_entries_merged (members : Dict.t json) (papers : list paper) :
  Forall stored_entry members -> Forall stored_entry (merged members papers).
Proof.
  revert members. induction papers as [|p rest IH]; intros members H; [exact H|].
  apply IH, stored_entries_set, H.
Qed.

Lemma paper_blocks_of_entries (members : Dict.t json) :
  Forall stored_entry members -> exists text, paper_blocks str_other members = Ok text.
Proof.
  induction 1 as [|[k v] rest [p Hp] _ [text IH]]; simpl.
  - eexists; reflexivity.
  - simpl in Hp. subst v. rewrite paper_block_of_entry, IH. simpl.
    eexists; reflexivity.
Qed.



(** C6, as amended.  The summary shown for a record is the first 500
    characters of its summary (all of it when it has at most 500), and
    the marker [...] follows it whatever the length of the summary; this
    is the summary section of every record [search_papers] stored. *)
Theorem summary_excerpt_always_marked (s : string) :
  summary_section str_other (JStr s)
  = Ok ("### Summary" ++ nl ++ PyStr.take 500 s ++ "..." ++ nl ++ nl)
  /\ String.length (PyStr.take 500 s) = Nat.min 500 (String.length s)
  /\ String.prefix (PyStr.take 500 s) s = true
  /\ (String.length s <= 500 -> PyStr.take 500 s = s)
  /\ (forall paper_id p, summary p = s ->
        exists head,
          paper_block str_other paper_id (paper_info_entry p)
          = Ok (head ++ ("### Summary" ++ nl ++ PyStr.take 500 s ++ "..." ++ nl ++ nl)
                ++ "---" ++ nl ++ nl)).
Proof.
  split; [reflexivity|]. split; [apply PyStr.take_length|].
  split; [apply PyStr.take_prefix|]. split; [apply PyStr.take_all|].
  intros paper_id p <-. rewrite paper_block_of_entry.
  exists ("## " ++ title p ++ nl
          ++ "- **Paper ID**: " ++ paper_id ++ nl
          ++ "- **Authors**: "
          ++ (match authors p with [] => "N/A" | _ :: _ => PyStr.join ", " (authors p) end)
          ++ nl
          ++ "- **Published**: "
          ++ (match published p with Some day => day | None => "N/A" end) ++ nl
          ++ "- **PDF URL**: [" ++ pdf_url p ++ "](" ++ pdf_url p ++ ")" ++ nl ++ nl).
  rewrite !PyStr.append_assoc. reflexivity.
Qed.
End ListingProperties.

(** *** A record with a short summary *)

(** A stand-in for [str(v)] on the sample disks: the name of the type. *)
Definition type_tag (v : json) : string := "<" ++ type_name v ++ ">".

Definition disk_with_A : disk :=
  Some [("quantum_computing", TopicDir (Some (Holds (JObj [("A", paper_info_entry paper_A)]))))].

(** C6 as stated fails: a summary of twelve characters is shown in full and
    still followed by the marker. *)
Lemma short_summary_is_followed_by_marker :
  String.length (summary paper_A) = 12
  /\ summary_section type_tag (JStr (summary paper_A))
     = Ok ("### Summary" ++ nl ++ "An abstract." ++ "..." ++ nl ++ nl)
  /\ get_topic_papers type_tag disk_with_A "quantum_computing"
     = "# Papers on Quantum Computing" ++ nl ++ nl
       ++ "Total papers: 1" ++ nl ++ nl
       ++ "## First paper" ++ nl
       ++ "- **Paper ID**: A" ++ nl
       ++ "- **Authors**: Ada Lovelace" ++ nl
       ++ "- **Published**: 2023-03-15" ++ nl
       ++ "- **PDF URL**: [http://arxiv.org/pdf/A](http://arxiv.org/pdf/A)" ++ nl ++ nl
       ++ "### Summary" ++ nl ++ "An abstract...." ++ nl ++ nl
       ++ "---" ++ nl ++ nl.
Proof. repeat split. Qed.

Lemma short_summary_is_shown_in_full :
  PyStr.take 500 (summary paper_A) = summary paper_A.
Proof.
  pose proof (summary_excerpt_always_marked type_tag (summary paper_A))
    as (_ & _ & _ & Hfull & _).
  apply Hfull. simpl. lia.
Defined.


(** ** The calculator *)

Lemma forall_chars_In (p : ascii -> bool) (s : string) :
  PyStr.forall_chars p s = true
  <-> (forall c, In c (list_ascii_of_string s) -> p c = true).
Proof.
  induction s as [|a rest IH]; simpl.
  - split; [intros _ c []|reflexivity].
  - rewrite andb_true_iff, IH. split.
    + intros [Ha Hr] c [<-|Hc]; auto.
    + intros H. split; [apply H; auto|]. intros c Hc. apply H. auto.
Qed.

Section CalculatorProperties.
Variable value : Type.
Variable py_eval : string -> result value.
Variable py_str : value -> result string.

(** C8.  [calculator] returns a string for every input and never
    raises: the invalid-characters message when some character of the
    expression is outside [allowed_chars], the evaluation-error message
    when [eval] (or [str] of its result) raises, and [str] of the result
    otherwise. *)
Theorem calculator_never_raises (expression : string) :
  (exists text, calculator value py_eval py_str expression = Ok text)
  /\ (all_allowed expression = true
      <-> forall c, In c (list_ascii_of_string expression) ->
                    PyStr.has_char c allowed_chars = true)
  /\ (all_allowed expression = false ->
      calculator value py_eval py_str expression
      = Ok "Error: Invalid characters in expression.")
  /\ (all_allowed expression = true ->
      forall e, py_eval expression = Raise e ->
      calculator value py_eval py_str expression
      = Ok ("Error evaluating expression: " ++ exn_str e))
  /\ (all_allowed expression = true ->
      forall v e, py_eval expression = Ok v -> py_str v = Raise e ->
      calculator value py_eval py_str expression
      = Ok ("Error evaluating expression: " ++ exn_str e))
  /\ (all_allowed expression = true ->
      forall v text, py_eval expression = Ok v -> py_str v = Ok text ->
      calculator value py_eval py_str expression = Ok text).
Proof.
  unfold calculator, try_except.
  split; [|split; [apply forall_chars_In|]].
  - destruct (all_allowed expression); simpl; [|eexists; reflexivity].
    destruct (py_eval expression) as [v|e]; simpl; [|eexists; reflexivity].
    destruct (py_str v); eexists; reflexivity.
  - repeat split.
    + intros ->. reflexivity.
    + intros -> e ->. reflexivity.
    + intros -> v e -> Hs. simpl. rewrite Hs. reflexivity.
    + intros -> v text -> Hs. simpl. rewrite Hs. reflexivity.
Qed.
End CalculatorProperties.

(** *** A stand-in evaluator *)

Definition sample_eval (expression : string) : result Z :=
  if String.eqb expression "2 + 2" then Ok 4%Z
  else if String.eqb expression "1/0" then
    Raise (mk_exn (Other "ZeroDivisionError") "division by zero")
  else Raise (mk_exn (Other "SyntaxError") "invalid syntax").

Definition sample_str (z : Z) : result string :=
  Ok (NilZero.string_of_int (Z.to_int z)).

Lemma calculator_on_samples :
  calculator Z sample_eval sample_str "2 + 2" = Ok "4"
  /\ calculator Z sample_eval sample_str "1/0"
     = Ok "Error evaluating expression: division by zero"
  /\ calculator Z sample_eval sample_str "__import__('os')"
     = Ok "Error: Invalid characters in expression.".
Proof.
  split; [|split].
  - pose proof (calculator_never_raises Z sample_eval sample_str "2 + 2")
      as (_ & _ & _ & _ & _ & Hok).
    exact (Hok eq_refl 4%Z "4" eq_refl eq_refl).
  - pose proof (calculator_never_raises Z sample_eval sample_str "1/0")
      as (_ & _ & _ & Hraise & _).
    exact (Hraise eq_refl _ eq_refl).
  - pose proof (calculator_never_raises Z sample_eval sample_str "__import__('os')")
      as (_ & _ & Hbad & _).
    exact (Hbad eq_refl).
Defined.

(** ** The clock *)

Definition starts_with_digit (s : string) : Prop :=
  exists c rest, s = String c rest /\ c <> "E"%char.

Lemma str_nat_starts_with_digit (n : nat) : starts_with_digit (str_nat n).
Proof.
  unfold starts_with_digit, str_nat, NilZero.string_of_uint.
  destruct (Nat.to_uint n); simpl; do 2 eexists; (split; [reflexivity|discriminate]).
Qed.

Lemma zero_pad_starts_with_digit (width n : nat) : starts_with_digit (zero_pad width n).
Proof.
  unfold zero_pad. destruct (width - String.length (str_nat n)) as [|k]; simpl.
  - apply str_nat_starts_with_digit.
  - do 2 eexists. split; [reflexivity|discriminate].
Qed.

Lemma isoformat_starts_with_digit (now : datetime) : starts_with_digit (isoformat now).
Proof.
  unfold isoformat.
  destruct (zero_pad_starts_with_digit 4 (year now)) as (c & rest & -> & Hc).
  simpl. do 2 eexists. split; [reflexivity|exact Hc].
Qed.

Section ClockProperties.
Variable strftime : datetime -> string -> result string.

(** C9.  With a format on which [strftime] raises,
    [get_current_datetime] returns the error message, which is not the
    ISO 8601 text of the time; with a format on which it returns, the
    formatted text; the ISO 8601 text is returned when the format is
    absent or empty. *)
Theorem get_current_datetime_format_error (now : datetime) :
  (forall f e, f <> "" -> strftime now f = Raise e ->
     get_current_datetime strftime now (Some f)
     = Ok ("Error formatting date: " ++ exn_str e ++ ". Using default format.")
     /\ get_current_datetime strftime now (Some f) <> Ok (isoformat now))
  /\ (forall f text, f <> "" -> strftime now f = Ok text ->
       get_current_datetime strftime now (Some f) = Ok text)
  /\ get_current_datetime strftime now None = Ok (isoformat now)
  /\ get_current_datetime strftime now (Some "") = Ok (isoformat now).
Proof.
  unfold get_current_datetime, try_except, format_error_message.
  split; [|split; [|split; reflexivity]].
  - intros f e Hf He. apply String.eqb_neq in Hf. rewrite Hf, He. simpl.
    split; [reflexivity|].
    destruct (isoformat_starts_with_digit now) as (c & rest & -> & Hc).
    intros [= <- _]. apply Hc. reflexivity.
  - intros f text Hf Ht. apply String.eqb_neq in Hf. rewrite Hf, Ht. reflexivity.
Qed.
End ClockProperties.

(** *** A stand-in [strftime] that refuses a lone percent sign *)

Definition sample_strftime (now : datetime) (f : string) : result string :=
  if String.eqb f "%" then Raise (mk_exn (Other "ValueError") "Invalid format string")
  else Ok f.

Definition sample_time : datetime :=
  {| year := 2024; month := 3; day := 9; hour := 7; minute := 5; second := 0;
     microsecond := 0 |}.

Lemma get_current_datetime_on_lone_percent :
  get_current_datetime sample_strftime sample_time (Some "%")
  = Ok "Error formatting date: Invalid format string. Using default format."
  /\ get_current_datetime sample_strftime sample_time None = Ok "2024-03-09T07:05:00".
Proof.
  pose proof (get_current_datetime_format_error sample_strftime sample_time)
    as (Hraise & _ & Hnone & _).
  split; [|exact Hnone].
  refine (proj1 (Hraise "%" _ _ eq_refl)). discriminate.
Defined.

End CommonToolsProperties.

(** * Properties of the generator config server *)

Module GeneratorProperties.
Import GeneratorConfigServer.

(** The attributes [get_generator_configuration] reads, in order. *)
Definition config_attributes : list string :=
  [ "main_config"; "model_config"; "default_embedding_model";
    "default_completion_model"; "default_reasoning_model";
    "default_hf_embedding_model"; "default_hf_completion_model";
    "default_hf_reranker_model"; "default_hf_ocr_model"; "hf_model_dir" ].

Definition missing_attribute (g : pyval) (name : string) : exn :=
  mk_exn AttributeError
    ("'" ++ type_name g ++ "' object has no attribute '" ++ name ++ "'").

(** The attribute, when present, has a length. *)
Definition sized_if_present (g : pyval) (name : string) : bool :=
  match Dict.lookup name (instance_attributes g) with
  | None => true
  | Some c => match py_len c with Ok _ => true | Raise _ => false end
  end.

(** The client manager, when present, has its flag and a tool table with a
    length. *)
Definition manager_ready_if_present (g : pyval) : bool :=
  match Dict.lookup "mcp_client_manager" (instance_attributes g) with
  | None => true
  | Some manager =>
      hasattr manager "_initialized" && sized_if_present manager "available_tools"
      && hasattr manager "available_tools"
  end.

(** Every status attribute that is present can be read. *)
Definition status_readable (g : pyval) : bool :=
  sized_if_present g "embedding_model_cache"
  && sized_if_present g "completion_model_cache"
  && manager_ready_if_present g.

Lemma getattr_cases (g : pyval) (name : string) :
  (exists x, Dict.lookup name (instance_attributes g) = Some x
             /\ hasattr g name = true /\ getattr g name = Ok x)
  \/ (hasattr g name = false /\ getattr g name = Raise (missing_attribute g name)).
Proof.
  unfold hasattr, Dict.mem, getattr, missing_attribute.
  destruct (Dict.lookup name (instance_attributes g)) as [x|].
  - left. exists x. auto.
  - right. auto.
Qed.

Lemma not_available_cases (g : pyval) :
  not_available g = true
  <-> (g = PNone \/ hasattr g "_initialized" = false
       \/ exists flag, getattr g "_initialized" = Ok flag /\ truthy flag = false).
Proof.
  unfold not_available, hasattr, Dict.mem, getattr.
  destruct (Dict.lookup "_initialized" (instance_attributes g)) as [flag|] eqn:E.
  - split.
    + destruct g; try discriminate E; intros H.
      right. right. exists flag. split; [reflexivity|].
      apply negb_true_iff, H.
    + intros [->|[H|(flag' & [= <-] & Hf)]]; try discriminate.
      destruct g; try reflexivity; rewrite Hf; reflexivity.
  - split; [auto|]. intros _. destruct g; reflexivity.
Qed.

Section EndpointProperties.
Variable py_str : pyval -> string.

Lemma configuration_snapshot_missing (g : pyval) (name : string) :
  In name config_attributes -> hasattr g name = false ->
  exists missing,
    In missing config_attributes
    /\ configuration_snapshot py_str g = Raise (missing_attribute g missing).
Proof.
  intros Hin Hno. unfold configuration_snapshot.
  repeat
    match goal with
    | |- context [getattr g ?a] =>
        destruct (getattr_cases g a) as [(? & _ & ? & ->)|[_ ->]];
        [cbn [bind]
        |exists a; split; [unfold config_attributes; simpl; tauto|reflexivity]]
    end.
  exfalso. unfold config_attributes in Hin. simpl in Hin.
  repeat (destruct Hin as [<-|Hin]; [congruence|]). exact Hin.
Qed.

Lemma cache_size_spec (g : pyval) (cache : string) :
  sized_if_present g cache = true ->
  exists v, cache_size g cache = Ok v
            /\ json_copy py_str v = v
            /\ (hasattr g cache = false -> v = PStr "N/A").
Proof.
  unfold sized_if_present, cache_size, hasattr, Dict.mem, getattr.
  destruct (Dict.lookup cache (instance_attributes g)) as [c|].
  - cbn [bind]. destruct (py_len c) as [n|e]; [|discriminate]. intros _.
    eexists. split; [reflexivity|]. split; [reflexivity|discriminate].
  - intros _. eexists. split; [reflexivity|]. split; reflexivity.
Qed.

Lemma model_status_spec (g : pyval) (model : string) :
  exists text, model_status g model = Ok (PStr text)
               /\ (hasattr g model = false -> text = "Not loaded")
               /\ (forall m, getattr g model = Ok m -> truthy m = false ->
                             text = "Not loaded").
Proof.
  unfold model_status, hasattr, Dict.mem, getattr.
  destruct (Dict.lookup model (instance_attributes g)) as [m|]; simpl.
  - eexists. split; [reflexivity|]. split; [discriminate|].
    intros m' [= <-] ->. reflexivity.
  - eexists. split; [reflexivity|]. split; [reflexivity|discriminate].
Qed.

Lemma available_initialized (g : pyval) :
  not_available g = false ->
  exists flag, getattr g "_initialized" = Ok flag /\ truthy flag = true.
Proof.
  unfold not_available, getattr.
  destruct (Dict.lookup "_initialized" (instance_attributes g)) as [flag|].
  - intros H. exists flag. split; [reflexivity|].
    destruct g; try discriminate H; apply negb_false_iff, H.
  - destruct g; discriminate.
Qed.

(** Both handlers answer any exception with an error payload. *)
Ltac answer_exception :=
  cbn [bind try_except];
  match goal with
  | |- context [exn_cls ?e] => destruct (exn_cls e)
  end;
  eexists; reflexivity.

Lemma get_generator_configuration_total (g : pyval) :
  exists payload, get_generator_configuration py_str g = Ok (PDict payload).
Proof.
  unfold get_generator_configuration.
  destruct (not_available g); [eexists; reflexivity|].
  unfold configuration_snapshot.
  repeat
    match goal with
    | |- context [getattr g ?a] =>
        destruct (getattr g a); [cbn [bind]|answer_exception]
    end.
  eexists. reflexivity.
Qed.

Lemma get_generator_status_total (g : pyval) :
  exists payload, get_generator_status py_str g = Ok (PDict payload).
Proof.
  unfold get_generator_status.
  destruct (not_available g); [eexists; reflexivity|].
  unfold status_snapshot.
  destruct (cache_size g "embedding_model_cache"); [cbn [bind]|answer_exception].
  destruct (cache_size g "completion_model_cache"); [cbn [bind]|answer_exception].
  destruct (model_status g "hf_embedding_model"); [cbn [bind]|answer_exception].
  destruct (model_status g "hf_completion_model"); [cbn [bind]|answer_exception].
  destruct (getattr g "_initialized"); [cbn [bind]|answer_exception].
  destruct (hasattr g "_last_cleanup_time").
  - destruct (getattr g "_last_cleanup_time"); [cbn [bind]|answer_exception].
    destruct (hasattr g "mcp_client_manager"); [|eexists; reflexivity].
    destruct (getattr g "mcp_client_manager") as [manager|]; [cbn [bind]|answer_exception].
    destruct (getattr manager "_initialized"); [cbn [bind]|answer_exception].
    destruct (getattr manager "available_tools") as [tools|]; [cbn [bind]|answer_exception].
    destruct (py_len tools); [eexists; reflexivity|answer_exception].
  - cbn [bind].
    destruct (hasattr g "mcp_client_manager"); [|eexists; reflexivity].
    destruct (getattr g "mcp_client_manager") as [manager|]; [cbn [bind]|answer_exception].
    destruct (getattr manager "_initialized"); [cbn [bind]|answer_exception].
    destruct (getattr manager "available_tools") as [tools|]; [cbn [bind]|answer_exception].
    destruct (py_len tools); [eexists; reflexivity|answer_exception].
Qed.

(** A client manager that lacks [_initialized] or [available_tools] makes
    the status snapshot raise. *)
Lemma status_snapshot_manager_incomplete (g manager : pyval) :
  getattr g "mcp_client_manager" = Ok manager ->
  hasattr manager "_initialized" = false \/ hasattr manager "available_tools" = false ->
  exists e, status_snapshot py_str g = Raise e.
Proof.
  intros Hm Hlack. unfold status_snapshot.
  assert (Hhas : hasattr g "mcp_client_manager" = true).
  { destruct (getattr_cases g "mcp_client_manager") as [(? & _ & H & _)|[_ H]];
      [exact H|congruence]. }
  rewrite Hhas, Hm.
  destruct (cache_size g "embedding_model_cache") as [a|];
    [cbn [bind]|eexists; reflexivity].
  destruct (cache_size g "completion_model_cache") as [a0|];
    [cbn [bind]|eexists; reflexivity].
  destruct (model_status g "hf_embedding_model") as [a1|];
    [cbn [bind]|eexists; reflexivity].
  destruct (model_status g "hf_completion_model") as [a2|];
    [cbn [bind]|eexists; reflexivity].
  destruct (getattr g "_initialized") as [a3|]; [cbn [bind]|eexists; reflexivity].
  assert (Hgoal : forall r : result pyval,
    exists e,
      bind r (fun last_cleanup_time =>
        bind (bind (Ok manager) (fun manager0 => getattr manager0 "_initialized"))
          (fun mcp_client_manager_initialized =>
             bind (bind (Ok manager) (fun manager0 =>
                     bind (getattr manager0 "available_tools") (fun tools =>
                       bind (py_len tools) (fun n => Ok (PInt (Z.of_nat n))))))
               (fun mcp_client_available_tools_count =>
                  Ok (json_copy py_str
                        (PDict [ ("initialized", a3);
                                 ("embedding_model_cache_size", a);
                                 ("completion_model_cache_size", a0);
                                 ("hf_embedding_model_loaded", a1);
                                 ("hf_completion_model_loaded", a2);
                                 ("last_cleanup_time", last_cleanup_time);
                                 ("mcp_client_manager_initialized",
                                  mcp_client_manager_initialized);
                                 ("mcp_client_available_tools_count",
                                  mcp_client_available_tools_count) ])))))
      = Raise e).
  { intros [t|e]; cbn [bind]; [|eexists; reflexivity].
    destruct (getattr_cases manager "_initialized") as [(x & _ & Hx & ->)|[_ ->]];
      [cbn [bind]|eexists; reflexivity].
    destruct (getattr_cases manager "available_tools") as [(y & _ & Hy & ->)|[_ ->]];
      [|eexists; reflexivity].
    destruct Hlack; congruence. }
  apply Hgoal.
Qed.

Lemma cache_size_unsized (g : pyval) (cache : string) :
  sized_if_present g cache = false -> exists e, cache_size g cache = Raise e.
Proof.
  unfold sized_if_present, cache_size, hasattr, Dict.mem, getattr.
  destruct (Dict.lookup cache (instance_attributes g)) as [c|]; [|discriminate].
  cbn [bind]. destruct (py_len c) as [n|e]; [discriminate|].
  intros _. exists e. reflexivity.
Qed.

(** The status snapshot of an initialized generator whose present status
    attributes can be read. *)
Lemma status_snapshot_readable (g : pyval) :
  not_available g = false ->
  sized_if_present g "embedding_model_cache" = true ->
  sized_if_present g "completion_model_cache" = true ->
  manager_ready_if_present g = true ->
  exists initialized embedding completion hf_embedding hf_completion cleanup
         manager_initialized tools_count,
    status_snapshot py_str g
    = Ok (PDict [ ("initialized", initialized);
                  ("embedding_model_cache_size", embedding);
                  ("completion_model_cache_size", completion);
                  ("hf_embedding_model_loaded", PStr hf_embedding);
                  ("hf_completion_model_loaded", PStr hf_completion);
                  ("last_cleanup_time", PStr cleanup);
                  ("mcp_client_manager_initialized", manager_initialized);
                  ("mcp_client_available_tools_count", tools_count) ])
    /\ (hasattr g "embedding_model_cache" = false -> embedding = PStr "N/A")
    /\ (hasattr g "completion_model_cache" = false -> completion = PStr "N/A")
    /\ (hasattr g "_last_cleanup_time" = false -> cleanup = "N/A")
    /\ (hasattr g "mcp_client_manager" = false ->
        manager_initialized = PStr "N/A" /\ tools_count = PStr "N/A")
    /\ (hasattr g "hf_embedding_model" = false -> hf_embedding = "Not loaded")
    /\ (forall m, getattr g "hf_embedding_model" = Ok m -> truthy m = false ->
                  hf_embedding = "Not loaded")
    /\ (hasattr g "hf_completion_model" = false -> hf_completion = "Not loaded")
    /\ (forall m, getattr g "hf_completion_model" = Ok m -> truthy m = false ->
                  hf_completion = "Not loaded").
Proof.
  intros Hav Hemb Hcomp Hman. unfold status_snapshot.
  destruct (cache_size_spec g _ Hemb) as (emb & -> & Hemb_copy & Hemb_na).
  destruct (cache_size_spec g _ Hcomp) as (comp & -> & Hcomp_copy & Hcomp_na).
  destruct (model_status_spec g "hf_embedding_model") as (hfe & -> & Hhfe1 & Hhfe2).
  destruct (model_status_spec g "hf_completion_model") as (hfc & -> & Hhfc1 & Hhfc2).
  destruct (available_initialized g Hav) as (flag & -> & _).
  cbn [bind].
  assert (Hclean : exists cleanup,
            (if hasattr g "_last_cleanup_time"
             then bind (getattr g "_last_cleanup_time") (fun t => Ok (PStr (py_str t)))
             else Ok (PStr "N/A")) = Ok (PStr cleanup)
            /\ (hasattr g "_last_cleanup_time" = false -> cleanup = "N/A")).
  { destruct (getattr_cases g "_last_cleanup_time") as [(t & _ & -> & ->)|[-> _]].
    - eexists. split; [reflexivity|discriminate].
    - eexists. split; reflexivity. }
  destruct Hclean as (cleanup & -> & Hclean_na). cbn [bind].
  unfold manager_ready_if_present in Hman.
  destruct (getattr_cases g "mcp_client_manager")
    as [(manager & Hlook & -> & ->)|[-> _]]; cbn [bind].
  - rewrite Hlook in Hman.
    apply andb_true_iff in Hman as [Hman Htools].
    apply andb_true_iff in Hman as [Hflag Hsized].
    destruct (getattr_cases manager "_initialized") as [(mi & _ & _ & ->)|[H _]];
      [|congruence].
    destruct (getattr_cases manager "available_tools") as [(tools & Htl & _ & ->)|[H _]];
      [|congruence].
    unfold sized_if_present in Hsized. rewrite Htl in Hsized. cbn [bind].
    destruct (py_len tools) as [n|]; [|discriminate]. cbn [bind].
    exists (json_copy py_str flag), emb, comp, hfe, hfc, cleanup,
      (json_copy py_str mi), (PInt (Z.of_nat n)).
    split.
    { cbn [json_copy map fst snd]. rewrite Hemb_copy, Hcomp_copy. reflexivity. }
    repeat (split; [assumption|]).
    split; [discriminate|]. auto.
  - exists (json_copy py_str flag), emb, comp, hfe, hfc, cleanup, (PStr "N/A"), (PStr "N/A").
    split.
    { cbn [json_copy map fst snd]. rewrite Hemb_copy, Hcomp_copy. reflexivity. }
    repeat (split; [assumption|]).
    split; [auto|]. auto.
Qed.

(** The status snapshot of an initialized generator raises when a status
    attribute that is present cannot be read: a cache without a length, or
    a client manager without its flag or without tools that have a
    length. *)
Lemma status_snapshot_unreadable (g : pyval) :
  not_available g = false -> status_readable g = false ->
  exists e, status_snapshot py_str g = Raise e.
Proof.
  intros Hav Hnot. unfold status_readable in Hnot. unfold status_snapshot.
  destruct (sized_if_present g "embedding_model_cache") eqn:Hemb;
    [|destruct (cache_size_unsized g _ Hemb) as [e ->]; exists e; reflexivity].
  destruct (cache_size_spec g _ Hemb) as (emb & -> & _). cbn [bind].
  destruct (sized_if_present g "completion_model_cache") eqn:Hcomp;
    [|destruct (cache_size_unsized g _ Hcomp) as [e ->]; exists e; reflexivity].
  destruct (cache_size_spec g _ Hcomp) as (comp & -> & _). cbn [bind].
  destruct (model_status_spec g "hf_embedding_model") as (hfe & -> & _).
  destruct (model_status_spec g "hf_completion_model") as (hfc & -> & _).
  destruct (available_initialized g Hav) as (flag & -> & _).
  cbn [bind andb] in *.
  unfold manager_ready_if_present in Hnot.
  destruct (getattr_cases g "mcp_client_manager")
    as [(manager & Hlook & Hhas & Hget)|[Hhas _]].
  - rewrite Hhas, Hget. rewrite Hlook in Hnot.
    assert (Hmanager : forall r : result pyval,
      exists e,
        bind r (fun last_cleanup_time =>
          bind (bind (Ok manager) (fun manager0 => getattr manager0 "_initialized"))
            (fun mcp_client_manager_initialized =>
               bind (bind (Ok manager) (fun manager0 =>
                       bind (getattr manager0 "available_tools") (fun tools =>
                         bind (py_len tools) (fun n => Ok (PInt (Z.of_nat n))))))
                 (fun mcp_client_available_tools_count =>
                    Ok (json_copy py_str
                          (PDict [ ("initialized", flag);
                                   ("embedding_model_cache_size", emb);
                                   ("completion_model_cache_size", comp);
                                   ("hf_embedding_model_loaded", PStr hfe);
                                   ("hf_completion_model_loaded", PStr hfc);
                                   ("last_cleanup_time", last_cleanup_time);
                                   ("mcp_client_manager_initialized",
                                    mcp_client_manager_initialized);
                                   ("mcp_client_available_tools_count",
                                    mcp_client_available_tools_count) ])))))
        = Raise e).
    { intros [t|e]; cbn [bind]; [|eexists; reflexivity].
      destruct (getattr_cases manager "_initialized") as [(x & _ & Hx & ->)|[_ ->]];
        [cbn [bind]|eexists; reflexivity].
      destruct (getattr_cases manager "available_tools") as [(y & Hy & Hhy & ->)|[_ ->]];
        [cbn [bind]|eexists; reflexivity].
      rewrite Hx, Hhy in Hnot. unfold sized_if_present in Hnot. rewrite Hy in Hnot.
      destruct (py_len y) as [n|e]; [discriminate Hnot|].
      cbn [bind]. eexists; reflexivity. }
    apply Hmanager.
  - exfalso. unfold hasattr, Dict.mem in Hhas.
    destruct (Dict.lookup "mcp_client_manager" (instance_attributes g));
      discriminate.
Qed.

(** C7, as amended.  Neither endpoint raises, and each returns a
    dictionary.  When the generator is absent, lacks [_initialized] or is
    not initialized, both return the not-initialized error payload.  For an
    initialized generator, each endpoint returns an error payload whenever
    its snapshot raises.  The configuration snapshot raises when an
    attribute it reads is missing, and the payload then names a missing
    attribute.  The status snapshot raises exactly when a status attribute
    that is present cannot be read (a cache without a length, a client
    manager without its flag or without tools that have a length);
    otherwise the status endpoint returns the status payload, which has no
    [error] key and reports a missing cache, cleanup time or client manager
    as ["N/A"] and a missing or false model as ["Not loaded"]. *)
Theorem introspection_degrades_without_raising (g : pyval) :
  (exists payload, get_generator_configuration py_str g = Ok (PDict payload))
  /\ (exists payload, get_generator_status py_str g = Ok (PDict payload))
  /\ (not_available g = true
      <-> (g = PNone \/ hasattr g "_initialized" = false
           \/ exists flag, getattr g "_initialized" = Ok flag /\ truthy flag = false))
  /\ (not_available g = true ->
      get_generator_configuration py_str g = Ok not_initialized_payload
      /\ get_generator_status py_str g = Ok not_initialized_payload)
  /\ (not_available g = false ->
      forall name, In name config_attributes -> hasattr g name = false ->
      exists missing,
        In missing config_attributes
        /\ get_generator_configuration py_str g
           = Ok (error_payload
                   ("Generator instance is missing an expected attribute: "
                    ++ exn_str (missing_attribute g missing))))
  /\ (not_available g = false ->
      forall manager, getattr g "mcp_client_manager" = Ok manager ->
      hasattr manager "_initialized" = false \/ hasattr manager "available_tools" = false ->
      exists text, get_generator_status py_str g = Ok (error_payload text))
  /\ (not_available g = false ->
      forall e, configuration_snapshot py_str g = Raise e ->
      exists text, get_generator_configuration py_str g = Ok (error_payload text))
  /\ (not_available g = false ->
      forall e, status_snapshot py_str g = Raise e ->
      exists text, get_generator_status py_str g = Ok (error_payload text))
  /\ (not_available g = false -> status_readable g = false ->
      exists e text,
        status_snapshot py_str g = Raise e
        /\ get_generator_status py_str g = Ok (error_payload text))
  /\ (not_available g = false -> status_readable g = true ->
      exists initialized embedding completion hf_embedding hf_completion cleanup
             manager_initialized tools_count,
        get_generator_status py_str g
        = Ok (PDict [ ("initialized", initialized);
                      ("embedding_model_cache_size", embedding);
                      ("completion_model_cache_size", completion);
                      ("hf_embedding_model_loaded", PStr hf_embedding);
                      ("hf_completion_model_loaded", PStr hf_completion);
                      ("last_cleanup_time", PStr cleanup);
                      ("mcp_client_manager_initialized", manager_initialized);
                      ("mcp_client_available_tools_count", tools_count) ])
        /\ (hasattr g "embedding_model_cache" = false -> embedding = PStr "N/A")
        /\ (hasattr g "completion_model_cache" = false -> completion = PStr "N/A")
        /\ (hasattr g "_last_cleanup_time" = false -> cleanup = "N/A")
        /\ (hasattr g "mcp_client_manager" = false ->
            manager_initialized = PStr "N/A" /\ tools_count = PStr "N/A")
        /\ (hasattr g "hf_embedding_model" = false -> hf_embedding = "Not loaded")
        /\ (forall m, getattr g "hf_embedding_model" = Ok m -> truthy m = false ->
                      hf_embedding = "Not loaded")
        /\ (hasattr g "hf_completion_model" = false -> hf_completion = "Not loaded")
        /\ (forall m, getattr g "hf_completion_model" = Ok m -> truthy m = false ->
                      hf_completion = "Not loaded")).
Proof.
  split; [apply get_generator_configuration_total|].
  split; [apply get_generator_status_total|].
  split; [apply not_available_cases|].
  split; [unfold get_generator_configuration, get_generator_status;
          intros ->; split; reflexivity|].
  split.
  { unfold get_generator_configuration. intros -> name Hin Hno.
    destruct (configuration_snapshot_missing g name Hin Hno) as (missing & Hm & ->).
    exists missing. split; [exact Hm|reflexivity]. }
  split.
  { unfold get_generator_status. intros -> manager Hm Hlack.
    destruct (status_snapshot_manager_incomplete g manager Hm Hlack) as [e ->].
    cbn [try_except]. destruct (exn_cls e); eexists; reflexivity. }
  split.
  { unfold get_generator_configuration. intros -> e ->.
    cbn [try_except]. destruct (exn_cls e); eexists; reflexivity. }
  split.
  { unfold get_generator_status. intros -> e ->.
    cbn [try_except]. destruct (exn_cls e); eexists; reflexivity. }
  split.
  { intros Hav Hnot.
    destruct (status_snapshot_unreadable g Hav Hnot) as [e He].
    exists e. unfold get_generator_status. rewrite Hav, He.
    cbn [try_except]. destruct (exn_cls e); eexists; split; reflexivity. }
  intros Hav Hready. unfold status_readable in Hready.
  apply andb_true_iff in Hready as [Hready Hman].
  apply andb_true_iff in Hready as [Hemb Hcomp].
  destruct (status_snapshot_readable g Hav Hemb Hcomp Hman)
    as (i & e & c & he & hc & cl & mi & tc & Heq & Hfields).
  exists i, e, c, he, hc, cl, mi, tc.
  split; [|exact Hfields].
  unfold get_generator_status. rewrite Hav, Heq. reflexivity.
Qed.

(** C10, as amended.  For an initialized generator, whose caches (when
    present) have a length and whose client manager (when present) has its
    flag and tools, [get_generator_status] returns the status payload, with
    no [error] key: a cache, a cleanup time or a client manager that is
    missing is reported as ["N/A"], and a model that is missing or false
    as ["Not loaded"]. *)
Theorem status_tolerates_missing_attributes (g : pyval) :
  not_available g = false ->
  sized_if_present g "embedding_model_cache" = true ->
  sized_if_present g "completion_model_cache" = true ->
  manager_ready_if_present g = true ->
  exists initialized embedding completion hf_embedding hf_completion cleanup
         manager_initialized tools_count,
    get_generator_status py_str g
    = Ok (PDict [ ("initialized", initialized);
                  ("embedding_model_cache_size", embedding);
                  ("completion_model_cache_size", completion);
                  ("hf_embedding_model_loaded", PStr hf_embedding);
                  ("hf_completion_model_loaded", PStr hf_completion);
                  ("last_cleanup_time", PStr cleanup);
                  ("mcp_client_manager_initialized", manager_initialized);
                  ("mcp_client_available_tools_count", tools_count) ])
    /\ (hasattr g "embedding_model_cache" = false -> embedding = PStr "N/A")
    /\ (hasattr g "completion_model_cache" = false -> completion = PStr "N/A")
    /\ (hasattr g "_last_cleanup_time" = false -> cleanup = "N/A")
    /\ (hasattr g "mcp_client_manager" = false ->
        manager_initialized = PStr "N/A" /\ tools_count = PStr "N/A")
    /\ (hasattr g "hf_embedding_model" = false -> hf_embedding = "Not loaded")
    /\ (forall m, getattr g "hf_embedding_model" = Ok m -> truthy m = false ->
                  hf_embedding = "Not loaded")
    /\ (hasattr g "hf_completion_model" = false -> hf_completion = "Not loaded")
    /\ (forall m, getattr g "hf_completion_model" = Ok m -> truthy m = false ->
                  hf_completion = "Not loaded").
Proof.
  intros Hav Hemb Hcomp Hman.
  destruct (status_snapshot_readable g Hav Hemb Hcomp Hman)
    as (i & e & c & he & hc & cl & mi & tc & Heq & Hfields).
  exists i, e, c, he, hc, cl, mi, tc.
  split; [|exact Hfields].
  unfold get_generator_status. rewrite Hav, Heq. reflexivity.
Qed.
End EndpointProperties.

(** *** Sample generators *)

(** A stand-in for [str(v)] on the sample generators. *)
Definition sample_py_str (v : pyval) : string :=
  match v with
  | PStr s => s
  | PPath text => text
  | _ => "<" ++ type_name v ++ ">"
  end.

(** An initialized generator with its configuration and no cache, model,
    cleanup time or client manager. *)
Definition generator_without_status_attributes : pyval :=
  PObject "Generator"
    [ ("_initialized", PBool true);
      ("main_config", PDict [("log_dir", PPath "logs")]);
      ("model_config", PDict []);
      ("default_embedding_model", PStr "embed-small");
      ("default_completion_model", PStr "chat-small");
      ("default_reasoning_model", PStr "reason-small");
      ("default_hf_embedding_model", PStr "hf-embed");
      ("default_hf_completion_model", PStr "hf-chat");
      ("default_hf_reranker_model", PStr "hf-rerank");
      ("default_hf_ocr_model", PStr "hf-ocr");
      ("hf_model_dir", PPath "models") ].

(** C7 as stated fails: the generator lacks attributes that the status
    endpoint reads, and the endpoint returns the status payload, which has
    no [error] key. *)
Lemma status_without_attributes_is_not_an_error :
  hasattr generator_without_status_attributes "embedding_model_cache" = false
  /\ hasattr generator_without_status_attributes "mcp_client_manager" = false
  /\ get_generator_status sample_py_str generator_without_status_attributes
     = Ok (PDict [ ("initialized", PBool true);
                   ("embedding_model_cache_size", PStr "N/A");
                   ("completion_model_cache_size", PStr "N/A");
                   ("hf_embedding_model_loaded", PStr "Not loaded");
                   ("hf_completion_model_loaded", PStr "Not loaded");
                   ("last_cleanup_time", PStr "N/A");
                   ("mcp_client_manager_initialized", PStr "N/A");
                   ("mcp_client_available_tools_count", PStr "N/A") ]).
Proof. repeat split. Qed.

(** An initialized generator without [hf_model_dir]. *)
Definition generator_without_model_dir : pyval :=
  PObject "Generator"
    [ ("_initialized", PBool true);
      ("main_config", PDict []);
      ("model_config", PDict []);
      ("default_embedding_model", PStr "embed-small");
      ("default_completion_model", PStr "chat-small");
      ("default_reasoning_model", PStr "reason-small");
      ("default_hf_embedding_model", PStr "hf-embed");
      ("default_hf_completion_model", PStr "hf-chat");
      ("default_hf_reranker_model", PStr "hf-rerank");
      ("default_hf_ocr_model", PStr "hf-ocr") ].

Lemma introspection_on_absent_and_incomplete_generators :
  get_generator_configuration sample_py_str PNone = Ok not_initialized_payload
  /\ get_generator_status sample_py_str PNone = Ok not_initialized_payload
  /\ exists missing,
       In missing config_attributes
       /\ get_generator_configuration sample_py_str generator_without_model_dir
          = Ok (error_payload
                  ("Generator instance is missing an expected attribute: "
                   ++ exn_str (missing_attribute generator_without_model_dir missing))).
Proof.
  pose proof (introspection_degrades_without_raising sample_py_str PNone)
    as (_ & _ & _ & Habsent & _).
  pose proof (introspection_degrades_without_raising sample_py_str
                generator_without_model_dir)
    as (_ & _ & _ & _ & Hmissing & _).
  destruct (Habsent eq_refl) as [Hc Hs].
  split; [exact Hc|]. split; [exact Hs|].
  apply (Hmissing eq_refl "hf_model_dir"); [|reflexivity].
  unfold config_attributes. simpl. tauto.
Defined.

(** An initialized generator without [embedding_model_cache], whose
    [completion_model_cache] is [None]. *)
Definition generator_with_unset_completion_cache : pyval :=
  PObject "Generator" [("_initialized", PBool true); ("completion_model_cache", PNone)].

(** C10 as stated fails: the generator is initialized and lacks
    [embedding_model_cache] (and the cleanup time and the client manager),
    and the status endpoint returns an error payload, because the cache
    that is present has no length. *)
Lemma status_with_missing_and_unsized_cache_is_an_error :
  not_available generator_with_unset_completion_cache = false
  /\ hasattr generator_with_unset_completion_cache "embedding_model_cache" = false
  /\ hasattr generator_with_unset_completion_cache "_last_cleanup_time" = false
  /\ hasattr generator_with_unset_completion_cache "mcp_client_manager" = false
  /\ get_generator_status sample_py_str generator_with_unset_completion_cache
     = Ok (error_payload
             "Error accessing generator status: object of type 'NoneType' has no len()").
Proof. repeat split. Qed.

(** An initialized generator with nothing else. *)
Definition bare_generator : pyval :=
  PObject "Generator" [("_initialized", PBool true)].

Lemma status_of_bare_generator :
  exists initialized embedding completion hf_embedding hf_completion cleanup
         manager_initialized tools_count,
    get_generator_status sample_py_str bare_generator
    = Ok (PDict [ ("initialized", initialized);
                  ("embedding_model_cache_size", embedding);
                  ("completion_model_cache_size", completion);
                  ("hf_embedding_model_loaded", PStr hf_embedding);
                  ("hf_completion_model_loaded", PStr hf_completion);
                  ("last_cleanup_time", PStr cleanup);
                  ("mcp_client_manager_initialized", manager_initialized);
                  ("mcp_client_available_tools_count", tools_count) ])
    /\ embedding = PStr "N/A" /\ completion = PStr "N/A" /\ cleanup = "N/A"
    /\ manager_initialized = PStr "N/A" /\ tools_count = PStr "N/A"
    /\ hf_embedding = "Not loaded" /\ hf_completion = "Not loaded".
Proof.
  destruct (status_tolerates_missing_attributes sample_py_str bare_generator
              eq_refl eq_refl eq_refl eq_refl)
    as (i & e & c & he & hc & cl & mi & tc & Heq & He & Hc & Hcl & Hm & Hhe & _ & Hhc & _).
  exists i, e, c, he, hc, cl, mi, tc.
  destruct (Hm eq_refl) as [Hmi Htc].
  repeat split; auto.
Defined.

End GeneratorProperties.

(** * Further properties of the paper store *)

Module PaperStoreProperties.
Import CommonTools CommonToolsProperties.

(** ** What [search_papers] keeps and what it refuses *)

Lemma papers_file_root (d : disk) (name : string) :
  papers_file (Some (makedirs_root d)) name = papers_file d name.
Proof. destruct d; reflexivity. Qed.

Lemma holds_mapping_lookup (items : Dict.t entry) (name : string) (e : entry) :
  forallb holds_mapping (map snd items) = true ->
  Dict.lookup name items = Some e -> holds_mapping e = true.
Proof.
  induction items as [|[n x] rest IH]; simpl; [discriminate|].
  intros H. apply andb_true_iff in H as [Hx Hrest].
  destruct (String.eqb name n); [intros [= <-]; exact Hx|auto].
Qed.

Lemma forallb_set (p : entry -> bool) (items : Dict.t entry) (name : string) (e : entry) :
  forallb p (map snd items) = true -> p e = true ->
  forallb p (map snd (Dict.set name e items)) = true.
Proof.
  intros H He. induction items as [|[n x] rest IH]; simpl in *.
  - rewrite He. reflexivity.
  - apply andb_true_iff in H as [Hx Hrest].
    destruct (String.eqb name n); simpl.
    + rewrite He. exact Hrest.
    + rewrite Hx. apply IH, Hrest.
Qed.

Lemma load_is_mapping (f : option file) :
  holds_mapping (TopicDir f) = true ->
  exists members, load_papers_info f = Ok (JObj members).
Proof.
  destruct f as [[|reason|v]|]; simpl; try (eexists; reflexivity); [discriminate|].
  destruct v; try discriminate. eexists; reflexivity.
Qed.

(** X1.  [search_papers] keeps the store well formed: if every partition
    file is text that is not JSON or holds a mapping before the call, the
    same is true after it, whether the call returns or raises. *)
Theorem search_papers_keeps_mappings (papers : list paper) (d : disk) (topic : string) :
  partitions_are_mappings d = true ->
  partitions_are_mappings (fst (search_papers papers d topic)) = true.
Proof.
  intros Hwf.
  assert (Hitems : forallb holds_mapping (map snd (makedirs_root d)) = true).
  { destruct d; [exact Hwf|reflexivity]. }
  destruct (Dict.lookup (topic_slug topic) (makedirs_root d)) as [[|f]|] eqn:E.
  - destruct (search_papers_blocked papers d topic E) as [-> _]. exact Hitems.
  - rewrite (search_papers_in_directory papers d topic f E).
    destruct (load_is_mapping f (holds_mapping_lookup _ _ _ Hitems E)) as [members ->].
    cbv beta iota.
    rewrite record_papers_mapping. simpl. apply forallb_set; [exact Hitems|reflexivity].
  - rewrite (search_papers_new_directory papers d topic E). simpl.
    apply forallb_set; [exact Hitems|reflexivity].
Qed.

Definition sample_disk_with_note : disk :=
  Some [("notes.txt", PlainFile); ("old_topic", TopicDir (Some Unparsable))].

Lemma search_papers_keeps_mappings_on_sample :
  partitions_are_mappings
    (fst (search_papers [paper_A; paper_C] sample_disk_with_note "Old Topic")) = true.
Proof.
  apply (search_papers_keeps_mappings [paper_A; paper_C] sample_disk_with_note "Old Topic").
  reflexivity.
Defined.


(** X3.  A call of [search_papers] that raises writes no partition file:
    every partition file is as it was before the call. *)
Theorem search_papers_failure_writes_nothing
  (papers : list paper) (d : disk) (topic : string) (e : exn) :
  snd (search_papers papers d topic) = Raise e ->
  forall name, papers_file (fst (search_papers papers d topic)) name = papers_file d name.
Proof.
  destruct (Dict.lookup (topic_slug topic) (makedirs_root d)) as [[|f]|] eqn:E.
  - destruct (search_papers_blocked papers d topic E) as [-> _].
    intros _ name. apply papers_file_root.
  - rewrite (search_papers_in_directory papers d topic f E).
    destruct (load_papers_info f) as [loaded|e0].
    + destruct (record_papers loaded papers); [discriminate|].
      intros _ name. apply papers_file_root.
    + intros _ name. apply papers_file_root.
  - rewrite (search_papers_new_directory papers d topic E). discriminate.
Qed.

Lemma search_papers_on_null_file_writes_nothing :
  snd (search_papers [paper_A] disk_with_null_file "Graph Theory")
  = Raise (mk_exn TypeError "'NoneType' object does not support item assignment")
  /\ papers_file (fst (search_papers [paper_A] disk_with_null_file "Graph Theory"))
       "graph_theory"
     = Some (Holds JNull).
Proof.
  split; [reflexivity|].
  exact (search_papers_failure_writes_nothing [paper_A] disk_with_null_file "Graph Theory"
           _ eq_refl "graph_theory").
Defined.



(** ** The keys of a partition after a merge *)

(** The fetched identifiers that are not in [seen], each once, in the order
    of their first appearance. *)
Fixpoint new_ids (seen : list string) (papers : list paper) : list string :=
  match papers with
  | [] => []
  | p :: rest =>
      if existsb (String.eqb (short_id p)) seen then new_ids seen rest
      else short_id p :: new_ids (short_id p :: seen) rest
  end.

Lemma mem_keys (k : string) (members : Dict.t json) :
  Dict.mem k members = existsb (String.eqb k) (Dict.keys members).
Proof.
  unfold Dict.mem, Dict.keys. induction members as [|[k0 v0] rest IH]; simpl.
  - reflexivity.
  - destruct (String.eqb k k0); [reflexivity|exact IH].
Qed.

Lemma new_ids_ext (seen seen' : list string) (papers : list paper) :
  (forall x, existsb (String.eqb x) seen = existsb (String.eqb x) seen') ->
  new_ids seen papers = new_ids seen' papers.
Proof.
  revert seen seen'. induction papers as [|p rest IH]; intros seen seen' H; simpl.
  - reflexivity.
  - rewrite <- H. destruct (existsb (String.eqb (short_id p)) seen).
    + apply IH, H.
    + f_equal. apply IH. intros x. simpl. rewrite H. reflexivity.
Qed.

Lemma new_ids_length (seen : list string) (papers : list paper) :
  List.length (new_ids seen papers) <= List.length papers.
Proof.
  revert seen. induction papers as [|p rest IH]; intros seen; simpl; [lia|].
  destruct (existsb (String.eqb (short_id p)) seen); simpl.
  - specialize (IH seen). lia.
  - specialize (IH (short_id p :: seen)). lia.
Qed.

Lemma keys_merged (members : Dict.t json) (papers : list paper) :
  Dict.keys (merged members papers)
  = (Dict.keys members ++ new_ids (Dict.keys members) papers)%list.
Proof.
  revert members. induction papers as [|p rest IH]; intros members.
  - simpl. rewrite app_nil_r. reflexivity.
  - change (merged members (p :: rest))
      with (merged (Dict.set (short_id p) (paper_info_entry p) members) rest).
    rewrite IH. simpl new_ids. rewrite <- mem_keys.
    destruct (Dict.mem (short_id p) members) eqn:E.
    + rewrite (Dict.keys_set_present _ _ _ E). reflexivity.
    + rewrite (Dict.keys_set_absent _ _ _ E), <- app_assoc. simpl. do 2 f_equal.
      apply new_ids_ext. intros x. rewrite existsb_app. simpl.
      rewrite orb_false_r. apply orb_comm.
Qed.

Lemma search_papers_stores_merged
  (papers : list paper) (d : disk) (topic : string) (members : Dict.t json) :
  papers_file d (topic_slug topic) = Some (Holds (JObj members)) ->
  papers_file (fst (search_papers papers d topic)) (topic_slug topic)
  = Some (Holds (JObj (merged members papers))).
Proof.
  intros H. destruct (papers_file_lookup _ _ _ H) as (items & -> & E).
  rewrite (search_papers_in_directory papers (Some items) topic _ E).
  cbn [load_papers_info]. rewrite record_papers_mapping. simpl fst.
  rewrite papers_file_set, String.eqb_refl. reflexivity.
Qed.

(** X5.  [search_papers] never removes an identifier: every key of the
    mapping the partition held is a key of the mapping it holds afterwards,
    and the number of records grows by at most the number of results. *)
Theorem search_papers_never_removes
  (papers : list paper) (d : disk) (topic : string) (members : Dict.t json) :
  papers_file d (topic_slug topic) = Some (Holds (JObj members)) ->
  exists stored,
    papers_file (fst (search_papers papers d topic)) (topic_slug topic)
    = Some (Holds (JObj stored))
    /\ (forall k, Dict.mem k members = true -> Dict.mem k stored = true)
    /\ List.length members <= List.length stored
    /\ List.length stored <= List.length members + List.length papers.
Proof.
  intros H. exists (merged members papers).
  split; [apply search_papers_stores_merged, H|].
  split; [intros k Hk; rewrite mem_merged, Hk; reflexivity|].
  assert (Hlen : List.length (merged members papers)
                 = List.length members
                   + List.length (new_ids (Dict.keys members) papers)).
  { rewrite <- (length_map fst (merged members papers)).
    change (map fst (merged members papers)) with (Dict.keys (merged members papers)).
    rewrite keys_merged, length_app. unfold Dict.keys. rewrite length_map. reflexivity. }
  pose proof (new_ids_length (Dict.keys members) papers). lia.
Qed.

Lemma search_papers_never_removes_A :
  exists stored,
    papers_file (fst (search_papers [paper_B'; paper_C] disk_with_A_B "Quantum Computing"))
      "quantum_computing"
    = Some (Holds (JObj stored))
    /\ Dict.mem "A" stored = true.
Proof.
  destruct (search_papers_never_removes [paper_B'; paper_C] disk_with_A_B
              "Quantum Computing" _ eq_refl) as (stored & Hfile & Hkeep & _).
  exists stored. split; [exact Hfile|]. apply Hkeep. reflexivity.
Defined.

(** X6.  The order of a partition: after [search_papers], the keys the
    mapping had are where they were, and the fetched identifiers that are
    new follow them, each once, in the order the collaborator first gave
    them. *)
Theorem search_papers_appends_new_keys
  (papers : list paper) (d : disk) (topic : string) (members : Dict.t json) :
  papers_file d (topic_slug topic) = Some (Holds (JObj members)) ->
  exists stored,
    papers_file (fst (search_papers papers d topic)) (topic_slug topic)
    = Some (Holds (JObj stored))
    /\ Dict.keys stored
       = (Dict.keys members ++ new_ids (Dict.keys members) papers)%list.
Proof.
  intros H. exists (merged members papers).
  split; [apply search_papers_stores_merged, H|apply keys_merged].
Qed.

Lemma search_papers_appends_C_after_A_B :
  exists stored,
    papers_file (fst (search_papers [paper_C; paper_B'; paper_C] disk_with_A_B
                        "Quantum Computing"))
      "quantum_computing"
    = Some (Holds (JObj stored))
    /\ Dict.keys stored = ["A"; "B"; "C"].
Proof.
  exact (search_papers_appends_new_keys [paper_C; paper_B'; paper_C] disk_with_A_B
           "Quantum Computing" _ eq_refl).
Defined.

(** ** [search_papers], then [extract_info] *)

Section SearchThenLookup.
Variable dumps_indent2 : json -> string.

Lemma scan_items_set (items : Dict.t entry) (slug paper_id : string)
      (members : Dict.t json) (record : json) :
  (forall name e, In (name, e) items -> name <> slug ->
                  holds_mapping e = true /\ has_paper paper_id e = false) ->
  Dict.lookup paper_id members = Some record ->
  scan_items dumps_indent2
    (Dict.set slug (TopicDir (Some (Holds (JObj members)))) items) paper_id
  = Ok (dumps_indent2 record).
Proof.
  intros Hothers Hrec. induction items as [|[n e] rest IH].
  - apply scan_items_finds, Hrec.
  - simpl Dict.set. destruct (String.eqb slug n) eqn:E.
    + apply scan_items_finds, Hrec.
    + apply String.eqb_neq in E.
      destruct (Hothers n e (in_eq _ _)) as [Hwf Hno]; [congruence|].
      change ((n, e) :: Dict.set slug (TopicDir (Some (Holds (JObj members)))) rest)
        with ([(n, e)] ++ Dict.set slug (TopicDir (Some (Holds (JObj members)))) rest)%list.
      rewrite scan_items_skips by (simpl; rewrite ?Hwf, ?Hno; reflexivity).
      apply IH. intros name x Hin. apply Hothers. right. exact Hin.
Qed.

(** X7.  What [search_papers] stored, [extract_info] finds.  For a topic
    whose slug names a direct child of [PAPER_DIR]: after a call that
    returned, for each returned identifier that no other partition holds,
    the files of the other partitions being text that is not JSON or
    holding mappings, [extract_info] returns the serialized record just
    fetched for it (the last one, if the collaborator repeated the
    identifier). *)
Theorem search_papers_then_extract_info
  (papers : list paper) (d : disk) (topic : string) (ids : list string) (k : string) :
  plain_name (topic_slug topic) = true ->
  snd (search_papers papers d topic) = Ok ids ->
  In k ids ->
  (forall name e, In (name, e) (makedirs_root d) -> name <> topic_slug topic ->
                  holds_mapping e = true /\ has_paper k e = false) ->
  exists p,
    latest k papers = Some p
    /\ extract_info dumps_indent2 (fst (search_papers papers d topic)) k
       = Ok (dumps_indent2 (paper_info_entry p)).
Proof.
  intros _ Hok Hk Hothers.
  assert (Hstored : exists members,
            search_papers papers d topic
            = (Some (Dict.set (topic_slug topic)
                       (TopicDir (Some (Holds (JObj (merged members papers)))))
                       (makedirs_root d)),
               Ok (map short_id papers))).
  { destruct (Dict.lookup (topic_slug topic) (makedirs_root d)) as [[|f]|] eqn:E.
    - destruct (search_papers_blocked papers d topic E) as (_ & e & He & _). congruence.
    - rewrite (search_papers_in_directory papers d topic f E) in Hok |- *.
      destruct (load_papers_info f) as [loaded|e0]; [|discriminate Hok].
      destruct loaded as [| | | | | |members];
        try (destruct papers as [|p rest]; [|discriminate Hok];
             injection Hok as <-; destruct Hk).
      exists members. rewrite record_papers_mapping. reflexivity.
    - exists []. apply search_papers_new_directory, E. }
  destruct Hstored as [members Hrun]. rewrite Hrun in Hok |- *.
  injection Hok as <-.
  destruct (latest k papers) as [p|] eqn:L; [|apply latest_None in L; contradiction].
  exists p. split; [reflexivity|]. simpl fst. unfold extract_info.
  apply scan_items_set; [exact Hothers|]. rewrite lookup_merged, L. reflexivity.
Qed.

(** X10.  [extract_info] stops at the first match: the partitions after
    it in the listing are not read, whatever they hold. *)
Theorem extract_info_stops_at_first_match
  (before after : list (string * entry)) (name paper_id : string)
  (members : Dict.t json) (record : json) :
  forallb holds_mapping (map snd before) = true ->
  existsb (has_paper paper_id) (map snd before) = false ->
  Dict.lookup paper_id members = Some record ->
  extract_info dumps_indent2
    (Some (before ++ (name, TopicDir (Some (Holds (JObj members)))) :: after)%list) paper_id
  = Ok (dumps_indent2 record).
Proof.
  intros Hwf Hno Hrec. simpl.
  rewrite scan_items_skips by assumption. apply scan_items_finds, Hrec.
Qed.

(** Items that count in [extract_info]: directories whose
    [papers_info.json] holds a value, or is not UTF-8. *)
Definition readable (item : string * entry) : bool :=
  match snd item with
  | TopicDir (Some (Holds _)) => true
  | TopicDir (Some (NotUtf8 _)) => true
  | _ => false
  end.

(** X11.  Items of [PAPER_DIR] that are not directories, directories
    without [papers_info.json] and partitions whose file is text that is
    not JSON have no effect on [extract_info]: it gives what it gives
    without them, on every disk. *)
Theorem extract_info_ignores_unreadable_items
  (items : list (string * entry)) (paper_id : string) :
  extract_info dumps_indent2 (Some items) paper_id
  = extract_info dumps_indent2 (Some (filter readable items)) paper_id.
Proof.
  simpl. induction items as [|[n e] rest IH]; [reflexivity|].
  destruct e as [|[[|reason|v]|]]; simpl; try exact IH; [reflexivity|].
  destruct (py_contains paper_id v) as [[|]|err]; simpl; try reflexivity.
  exact IH.
Qed.
End SearchThenLookup.

Lemma search_then_extract_info_on_sample :
  exists p,
    latest "C" [paper_A; paper_C] = Some p
    /\ extract_info title_of
         (fst (search_papers [paper_A; paper_C] sample_disk_with_note "Old Topic")) "C"
       = Ok (title_of (paper_info_entry p)).
Proof.
  apply (search_papers_then_extract_info title_of [paper_A; paper_C]
           sample_disk_with_note "Old Topic" ["A"; "C"] "C" eq_refl eq_refl).
  - simpl. tauto.
  - intros name e [[= <- <-]|[[= <- <-]|[]]] Hne.
    + split; reflexivity.
    + exfalso. apply Hne. reflexivity.
Defined.

Definition disk_with_match_before_null : disk :=
  Some [("broken", TopicDir (Some Unparsable));
        ("topic1", TopicDir (Some (Holds (JObj [("X", paper_info_entry paper_A)]))));
        ("topic2", TopicDir (Some (Holds JNull)))].

Lemma extract_info_stops_before_null_file :
  extract_info title_of disk_with_match_before_null "X" = Ok "First paper".
Proof.
  exact (extract_info_stops_at_first_match title_of
           [("broken", TopicDir (Some Unparsable))]
           [("topic2", TopicDir (Some (Holds JNull)))]
           "topic1" "X" [("X", paper_info_entry paper_A)] (paper_info_entry paper_A)
           eq_refl eq_refl eq_refl).
Defined.

(** ** The topic list *)

Definition le_name (a b : string) : Prop := String.leb a b = true.

Lemma ascii_compare_refl (c : ascii) : Ascii.compare c c = Eq.
Proof. unfold Ascii.compare. apply N.compare_refl. Qed.

Lemma compare_not_gt_trans (a b c : string) :
  String.compare a b <> Gt -> String.compare b c <> Gt -> String.compare a c <> Gt.
Proof.
  revert b c. induction a as [|x a IH]; intros [|y b] [|z c]; simpl; try congruence.
  destruct (Ascii.compare x y) eqn:Hxy; [|clear IH|congruence];
    (destruct (Ascii.compare y z) eqn:Hyz; [| |congruence]); intros Hab Hbc.
  - apply Ascii.compare_eq_iff in Hxy, Hyz. subst. rewrite ascii_compare_refl.
    eapply IH; eassumption.
  - apply Ascii.compare_eq_iff in Hxy. subst. rewrite Hyz. discriminate.
  - apply Ascii.compare_eq_iff in Hyz. subst. rewrite Hxy. discriminate.
  - unfold Ascii.compare in *. rewrite N.compare_lt_iff in Hxy, Hyz.
    assert (H : N.compare (N_of_ascii x) (N_of_ascii z) = Lt)
      by (apply N.compare_lt_iff; lia).
    rewrite H. discriminate.
Qed.

Lemma le_name_trans (a b c : string) : le_name a b -> le_name b c -> le_name a c.
Proof.
  unfold le_name, String.leb. intros Hab Hbc.
  pose proof (compare_not_gt_trans a b c) as H.
  destruct (String.compare a b), (String.compare b c), (String.compare a c);
    try reflexivity; try discriminate Hab; try discriminate Hbc;
    exfalso; apply H; congruence.
Qed.

Lemma insert_sorted_perm (a : string) (names : list string) :
  Permutation (insert_sorted a names) (a :: names).
Proof.
  induction names as [|n rest IH]; simpl; [reflexivity|].
  destruct (String.leb a n); [reflexivity|].
  rewrite IH. apply perm_swap.
Qed.

Lemma sorted_perm (names : list string) : Permutation (sorted names) names.
Proof.
  induction names as [|n rest IH]; simpl; [reflexivity|].
  rewrite insert_sorted_perm, IH. reflexivity.
Qed.

Lemma insert_sorted_sorted (a : string) (names : list string) :
  StronglySorted le_name names -> StronglySorted le_name (insert_sorted a names).
Proof.
  induction 1 as [|n rest Hrest IH Hn]; simpl.
  - repeat constructor.
  - destruct (String.leb a n) eqn:E.
    + constructor; [constructor; assumption|].
      constructor; [exact E|].
      eapply Forall_impl; [|exact Hn]. intros x Hx. eapply le_name_trans; eassumption.
    + constructor; [exact IH|].
      refine (Permutation_Forall (Permutation_sym (insert_sorted_perm a rest)) _).
      constructor; [|exact Hn].
      destruct (String.leb_total a n) as [H|H]; [congruence|exact H].
Qed.

Lemma sorted_sorted (names : list string) : StronglySorted le_name (sorted names).
Proof.
  induction names as [|n rest IH]; simpl; [constructor|].
  apply insert_sorted_sorted, IH.
Qed.

(** An ascending list is determined by its elements. *)
Lemma ascending_unique (l l' : list string) :
  StronglySorted le_name l -> StronglySorted le_name l' -> Permutation l l' -> l = l'.
Proof.
  intros Hl. revert l'. induction Hl as [|a l Hl IH Ha]; intros l' Hl' Hp.
  - apply Permutation_nil in Hp. subst. reflexivity.
  - destruct Hl' as [|b l' Hl' Hb].
    + symmetry in Hp. apply Permutation_nil in Hp. discriminate.
    + assert (Hab : a = b).
      { assert (Ha_in : In a (b :: l')) by (eapply Permutation_in; [exact Hp|left; reflexivity]).
        assert (Hb_in : In b (a :: l)).
        { eapply Permutation_in; [symmetry; exact Hp|left; reflexivity]. }
        destruct Ha_in as [->|Ha_in]; [reflexivity|].
        destruct Hb_in as [->|Hb_in]; [reflexivity|].
        rewrite Forall_forall in Ha, Hb.
        apply String.leb_antisym; [apply Ha, Hb_in|apply Hb, Ha_in]. }
      subst b. f_equal. apply IH; [exact Hl'|].
      eapply Permutation_cons_inv. exact Hp.
Qed.

Lemma sorted_of_permutation (l l' : list string) :
  Permutation l l' -> sorted l = sorted l'.
Proof.
  intros Hp. apply ascending_unique; try apply sorted_sorted.
  rewrite !sorted_perm. exact Hp.
Qed.

Lemma topic_folders_In (items : list (string * entry)) (name : string) :
  In name (topic_folders items) <-> exists f, In (name, TopicDir (Some f)) items.
Proof.
  induction items as [|[n e] rest IH]; simpl.
  - split; [intros []|intros [f []]].
  - destruct e as [|[f|]]; simpl; rewrite IH; split.
    + intros [f H]. exists f. auto.
    + intros [f [[=]|H]]. exists f. exact H.
    + intros [<-|[g H]]; [exists f; auto|exists g; auto].
    + intros [g [[= <- <-]|H]]; [auto|right; exists g; exact H].
    + intros [f H]. exists f. auto.
    + intros [f [[=]|H]]. exists f. exact H.
Qed.

Lemma topic_folders_permutation (items items' : list (string * entry)) :
  Permutation items items' -> Permutation (topic_folders items) (topic_folders items').
Proof.
  induction 1 as [|[n e] l l' _ IH|[n e] [n' e'] l|l l' l'' _ IH1 _ IH2].
  - reflexivity.
  - simpl. destruct e as [|[f|]]; [exact IH|constructor; exact IH|exact IH].
  - simpl. destruct e as [|[f|]], e' as [|[f'|]]; try reflexivity. apply perm_swap.
  - etransitivity; eassumption.
Qed.

(** The directories of the disk that have a [papers_info.json]. *)
Definition populated (d : disk) : list string :=
  match d with
  | Some items => topic_folders items
  | None => []
  end.

Definition sample_listing : list (string * entry) :=
  [("zeta", TopicDir (Some Unparsable)); ("notes.txt", PlainFile);
   ("alpha", TopicDir (Some (Holds (JObj []))))].

Lemma populated_In (d : disk) (name : string) :
  In name (populated d)
  <-> exists items f, d = Some items /\ In (name, TopicDir (Some f)) items.
Proof.
  destruct d as [items|]; simpl.
  - rewrite topic_folders_In. split.
    + intros [f Hf]. exists items, f. auto.
    + intros (items' & f & [= <-] & Hf). exists f. exact Hf.
  - split; [intros []|intros (items & f & [=] & _)].
Qed.

Lemma folders_text (d : disk) :
  populated d <> [] ->
  get_available_folders d
  = folders_heading ++ folder_lines (sorted (populated d)) ++ folders_usage.
Proof.
  unfold get_available_folders.
  change (match d with Some items => topic_folders items | None => [] end) with (populated d).
  destruct (populated d); [congruence|reflexivity].
Qed.

(** X12.  What [get_available_folders] lists: when no directory of
    [PAPER_DIR] has a [papers_info.json] (or [PAPER_DIR] is absent) the
    no-folders text; otherwise one line for each directory that has the
    file, whether the file parses or not, in ascending order of the
    names. *)
Theorem get_available_folders_lists_populated (d : disk) :
  (populated d = [] -> get_available_folders d = folders_heading ++ no_folders_text)
  /\ (populated d <> [] ->
      exists lines,
        get_available_folders d = folders_heading ++ folder_lines lines ++ folders_usage
        /\ StronglySorted le_name lines
        /\ Permutation lines (populated d)
        /\ forall name,
             In name lines
             <-> exists items f, d = Some items /\ In (name, TopicDir (Some f)) items).
Proof.
  split.
  - unfold get_available_folders.
    change (match d with Some items => topic_folders items | None => [] end)
      with (populated d).
    intros ->. reflexivity.
  - intros Hne. exists (sorted (populated d)).
    split; [apply folders_text, Hne|].
    split; [apply sorted_sorted|]. split; [apply sorted_perm|].
    intros name. rewrite <- populated_In. split.
    + apply Permutation_in, sorted_perm.
    + apply Permutation_in, Permutation_sym, sorted_perm.
Qed.

Lemma get_available_folders_on_sample_listing :
  exists lines,
    get_available_folders (Some sample_listing)
    = folders_heading ++ folder_lines lines ++ folders_usage
    /\ Permutation lines ["zeta"; "alpha"].
Proof.
  destruct (get_available_folders_lists_populated (Some sample_listing)) as [_ H].
  destruct H as (lines & Htext & _ & Hperm & _); [discriminate|].
  exists lines. split; [exact Htext|exact Hperm].
Defined.

(** X13.  The text [get_available_folders] returns does not depend on the
    order in which [os.listdir] gives the items. *)
Theorem get_available_folders_order_independent (items items' : list (string * entry)) :
  Permutation items items' ->
  get_available_folders (Some items) = get_available_folders (Some items').
Proof.
  intros Hp. apply topic_folders_permutation in Hp.
  unfold get_available_folders.
  rewrite (sorted_of_permutation _ _ Hp).
  destruct (topic_folders items) as [|a l].
  - apply Permutation_nil in Hp. rewrite Hp. reflexivity.
  - destruct (topic_folders items') as [|a' l']; [|reflexivity].
    symmetry in Hp. apply Permutation_nil in Hp. discriminate.
Qed.

Lemma get_available_folders_on_swapped_listing :
  get_available_folders (Some sample_listing)
  = get_available_folders
      (Some [("alpha", TopicDir (Some (Holds (JObj []))));
             ("zeta", TopicDir (Some Unparsable)); ("notes.txt", PlainFile)]).
Proof.
  apply get_available_folders_order_independent.
  unfold sample_listing.
  apply Permutation_sym, (Permutation_cons_app [_; _] []). reflexivity.
Defined.

(** X8.  A topic that [search_papers] was run for is listed.  For a topic
    whose slug names a direct child of [PAPER_DIR]: after a call that
    returned, also one with no result, [get_available_folders] gives the
    list of folders, and the slug of the topic is one of its lines. *)
Theorem search_papers_then_get_available_folders
  (papers : list paper) (d : disk) (topic : string) (ids : list string) :
  plain_name (topic_slug topic) = true ->
  snd (search_papers papers d topic) = Ok ids ->
  exists lines,
    get_available_folders (fst (search_papers papers d topic))
    = folders_heading ++ folder_lines lines ++ folders_usage
    /\ StronglySorted le_name lines
    /\ In (topic_slug topic) lines.
Proof.
  intros _ Hok.
  assert (Hin : In (topic_slug topic) (populated (fst (search_papers papers d topic)))).
  { assert (Hset : forall (items : Dict.t entry) f,
              In (topic_slug topic)
                (topic_folders (Dict.set (topic_slug topic) (TopicDir (Some f)) items))).
    { intros items f. apply topic_folders_In. exists f.
      induction items as [|[n e] rest IH]; simpl; [auto|].
      destruct (String.eqb (topic_slug topic) n); simpl; auto. }
    destruct (Dict.lookup (topic_slug topic) (makedirs_root d)) as [[|f]|] eqn:E.
    - destruct (search_papers_blocked papers d topic E) as (_ & e & He & _). congruence.
    - rewrite (search_papers_in_directory papers d topic f E) in Hok |- *.
      destruct (load_papers_info f) as [loaded|e0]; [|discriminate].
      destruct (record_papers loaded papers); [|discriminate].
      apply Hset.
    - rewrite (search_papers_new_directory papers d topic E). apply Hset. }
  exists (sorted (populated (fst (search_papers papers d topic)))).
  split.
  { apply folders_text. intros Hnil. rewrite Hnil in Hin. destruct Hin. }
  split; [apply sorted_sorted|].
  apply (Permutation_in _ (Permutation_sym (sorted_perm _))), Hin.
Qed.

Lemma search_papers_without_results_lists_the_topic :
  exists lines,
    get_available_folders (fst (search_papers [] None "Graph Theory"))
    = folders_heading ++ folder_lines lines ++ folders_usage
    /\ StronglySorted le_name lines
    /\ In "graph_theory" lines.
Proof.
  exact (search_papers_then_get_available_folders [] None "Graph Theory" []
           eq_refl eq_refl).
Defined.

(** ** [search_papers], then [get_topic_papers] *)

Section SearchThenListing.
Variable str_other : json -> string.

Lemma search_papers_from_empty (papers : list paper) (d : disk) (topic : string) :
  blocked d (topic_slug topic) = false ->
  load_papers_info (papers_file d (topic_slug topic)) = Ok (JObj []) ->
  papers_file (fst (search_papers papers d topic)) (topic_slug topic)
  = Some (Holds (JObj (merged [] papers))).
Proof.
  intros Hb Hl. unfold blocked in Hb.
  rewrite <- papers_file_root in Hl. unfold papers_file in Hl.
  destruct (Dict.lookup (topic_slug topic) (makedirs_root d)) as [[|f]|] eqn:E;
    [discriminate| |].
  - rewrite (search_papers_in_directory papers d topic f E), Hl, record_papers_mapping.
    simpl fst. rewrite papers_file_set, String.eqb_refl. reflexivity.
  - rewrite (search_papers_new_directory papers d topic E). simpl fst.
    rewrite papers_file_set, String.eqb_refl. reflexivity.
Qed.

Lemma render_topic_with_total (topic : string) (members : Dict.t json) :
  Forall stored_entry members -> members <> [] ->
  exists blocks,
    render_topic str_other topic (JObj members)
    = Ok ("# Papers on " ++ topic_title topic ++ nl ++ nl
          ++ "Total papers: " ++ str_nat (List.length members) ++ nl ++ nl ++ blocks).
Proof.
  intros H Hne. destruct (paper_blocks_of_entries str_other _ H) as [text Ht].
  unfold render_topic.
  destruct members as [|kv more]; [congruence|].
  cbn [negb truthy py_len py_items bind]. rewrite Ht. cbn [bind].
  exists text. rewrite !PyStr.append_assoc. reflexivity.
Qed.

(** X9.  The listing of a topic right after it was first fetched.  For
    a topic whose slug names a direct child of [PAPER_DIR]: when the load
    step of [search_papers] gave the empty mapping (the partition file was
    absent, was text that is not JSON, or held the empty mapping),
    [get_topic_papers] on the slug says that no paper information was found
    if the collaborator gave no result, and otherwise gives the title and a
    total that counts the distinct identifiers fetched. *)
Theorem search_papers_then_get_topic_papers
  (papers : list paper) (d : disk) (topic : string) :
  plain_name (topic_slug topic) = true ->
  blocked d (topic_slug topic) = false ->
  load_papers_info (papers_file d (topic_slug topic)) = Ok (JObj []) ->
  let listing :=
    get_topic_papers str_other (fst (search_papers papers d topic)) (topic_slug topic) in
  let heading := "# Papers on " ++ topic_title (topic_slug topic) ++ nl ++ nl in
  (papers = [] ->
     listing = heading ++ "No paper information found in this topic folder." ++ nl)
  /\ (papers <> [] ->
      exists blocks,
        listing = heading ++ "Total papers: " ++ str_nat (List.length (new_ids [] papers))
                  ++ nl ++ nl ++ blocks).
Proof.
  intros _ Hb Hl listing heading. subst listing heading.
  unfold get_topic_papers. rewrite (search_papers_from_empty papers d topic Hb Hl).
  split.
  - intros ->. cbn [merged fold_left]. unfold render_topic. cbn [truthy negb].
    rewrite !PyStr.append_assoc. reflexivity.
  - intros Hne.
    assert (Hlen : List.length (merged [] papers) = List.length (new_ids [] papers)).
    { rewrite <- (length_map fst (merged [] papers)).
      change (map fst (merged [] papers)) with (Dict.keys (merged [] papers)).
      rewrite keys_merged. reflexivity. }
    destruct (render_topic_with_total (topic_slug topic) (merged [] papers))
      as [blocks Hr].
    + apply stored_entries_merged. constructor.
    + intros Hnil. rewrite Hnil in Hlen. destruct papers as [|p rest]; [congruence|].
      discriminate Hlen.
    + rewrite Hr, Hlen. exists blocks. rewrite !PyStr.append_assoc. reflexivity.
Qed.

Lemma paper_blocks_raises (members : Dict.t json) (k : string) (v : json) :
  In (k, v) members -> is_mapping v = false ->
  exists e, paper_blocks str_other members = Raise e.
Proof.
  intros Hin Hv. induction members as [|[k0 v0] rest IH]; [destruct Hin|].
  simpl. destruct (paper_block str_other k0 v0) as [block|e] eqn:B;
    [|eexists; reflexivity].
  destruct Hin as [[= -> ->]|Hin].
  - destruct v; try discriminate Hv; discriminate B.
  - destruct (IH Hin) as [e ->]. simpl. eexists; reflexivity.
Qed.

(** X15.  A record that is not a mapping does not make [get_topic_papers]
    raise: for a partition that has one, it returns the unexpected-error
    text for the topic. *)
Theorem get_topic_papers_reports_malformed_record
  (d : disk) (topic : string) (members : Dict.t json) (k : string) (v : json) :
  papers_file d topic = Some (Holds (JObj members)) ->
  In (k, v) members -> is_mapping v = false ->
  exists text,
    get_topic_papers str_other d topic
    = "# An unexpected error occurred while retrieving papers for topic folder "
      ++ topic ++ ": " ++ text.
Proof.
  intros Hf Hin Hv. unfold get_topic_papers. rewrite Hf.
  destruct (paper_blocks_raises members k v Hin Hv) as [e He].
  unfold render_topic. destruct members as [|kv more]; [destruct Hin|].
  cbn [negb truthy py_len py_items bind]. rewrite He. cbn [bind].
  exists (exn_str e). reflexivity.
Qed.
End SearchThenListing.

Lemma get_topic_papers_after_first_search :
  exists blocks,
    get_topic_papers type_tag
      (fst (search_papers [paper_B; paper_C; paper_B'] sample_disk_with_note "Old Topic"))
      "old_topic"
    = "# Papers on Old Topic" ++ nl ++ nl ++ "Total papers: 2" ++ nl ++ nl ++ blocks.
Proof.
  refine (proj2 (search_papers_then_get_topic_papers type_tag
                   [paper_B; paper_C; paper_B'] sample_disk_with_note "Old Topic"
                   eq_refl eq_refl eq_refl) _).
  discriminate.
Defined.

Definition disk_with_number_record : disk :=
  Some [("graph_theory", TopicDir (Some (Holds (JObj [("2303.08774v2", JInt 7)]))))].

Lemma get_topic_papers_on_number_record :
  exists text,
    get_topic_papers type_tag disk_with_number_record "graph_theory"
    = "# An unexpected error occurred while retrieving papers for topic folder "
      ++ "graph_theory" ++ ": " ++ text.
Proof.
  apply (get_topic_papers_reports_malformed_record type_tag disk_with_number_record
           "graph_theory" _ "2303.08774v2" (JInt 7) eq_refl).
  - left. reflexivity.
  - reflexivity.
Defined.

(** ** The folders listed and the folders [get_topic_papers] can read *)

Definition no_papers_text (topic : string) : string :=
  "# No papers found for topic folder: " ++ topic ++ nl ++ nl
  ++ "Ensure the folder exists and contains a 'papers_info.json' file. "
  ++ "You might need to use the 'search_papers' tool first for the original topic name.".

Lemma lookup_In (items : Dict.t entry) (name : string) (e : entry) :
  Dict.lookup name items = Some e -> In (name, e) items.
Proof.
  induction items as [|[n x] rest IH]; simpl; [discriminate|].
  destruct (String.eqb name n) eqn:E.
  - apply String.eqb_eq in E. subst n. intros [= ->]. auto.
  - auto.
Qed.

Lemma In_lookup (items : Dict.t entry) (name : string) (e : entry) :
  NoDup (map fst items) -> In (name, e) items -> Dict.lookup name items = Some e.
Proof.
  induction items as [|[n x] rest IH]; simpl; [intros _ []|].
  intros Hnd Hin. inversion Hnd as [|? ? Hout Hrest]; subst.
  destruct Hin as [[= -> ->]|Hin].
  - rewrite String.eqb_refl. reflexivity.
  - destruct (String.eqb name n) eqn:E; [|auto].
    apply String.eqb_eq in E. subst n. exfalso. apply Hout.
    apply (in_map fst) in Hin. exact Hin.
Qed.

Section ListedAndReadable.
Variable str_other : json -> string.

Lemma render_topic_heading (topic : string) (papers_data : json) (content : string) :
  render_topic str_other topic papers_data = Ok content ->
  exists rest, content = "# Papers on " ++ rest.
Proof.
  unfold render_topic. destruct (negb (truthy papers_data)).
  - intros [= <-]. eexists. rewrite !PyStr.append_assoc. reflexivity.
  - destruct (py_len papers_data); [cbn [bind]|discriminate].
    destruct (py_items papers_data) as [items|]; [cbn [bind]|discriminate].
    destruct (paper_blocks str_other items); [cbn [bind]|discriminate].
    intros [= <-]. eexists. rewrite !PyStr.append_assoc. reflexivity.
Qed.

Lemma get_topic_papers_of_file (d : disk) (topic : string) (f : file) :
  papers_file d topic = Some f ->
  get_topic_papers str_other d topic <> no_papers_text topic.
Proof.
  intros Hf. unfold get_topic_papers. rewrite Hf.
  destruct f as [|reason|papers_data]; [discriminate|discriminate|].
  destruct (render_topic str_other topic papers_data) as [content|e] eqn:R;
    [|discriminate].
  destruct (render_topic_heading _ _ _ R) as [rest ->]. discriminate.
Qed.

(** X14.  The folders [get_available_folders] lists are the folders
    [get_topic_papers] has a file for: with distinct item names, a name of
    a direct child of [PAPER_DIR] is listed exactly when [get_topic_papers]
    does not answer that no papers were found for it. *)
Theorem listed_folders_are_the_readable_ones
  (items : list (string * entry)) (name : string) :
  plain_name name = true ->
  NoDup (map fst items) ->
  (In name (populated (Some items))
   <-> get_topic_papers str_other (Some items) name <> no_papers_text name).
Proof.
  intros _ Hnd. rewrite populated_In. split.
  - intros (items' & f & [= <-] & Hin).
    apply (get_topic_papers_of_file _ _ f).
    unfold papers_file. rewrite (In_lookup _ _ _ Hnd Hin). reflexivity.
  - intros Hne. unfold get_topic_papers in Hne.
    destruct (papers_file (Some items) name) as [f|] eqn:Hf;
      [|exfalso; apply Hne; reflexivity].
    unfold papers_file in Hf.
    destruct (Dict.lookup name items) as [[|g]|] eqn:E; try discriminate.
    subst g. exists items, f. split; [reflexivity|]. apply lookup_In, E.
Qed.
End ListedAndReadable.

Lemma zeta_is_listed_and_readable :
  get_topic_papers type_tag (Some sample_listing) "zeta" <> no_papers_text "zeta".
Proof.
  apply (listed_folders_are_the_readable_ones type_tag sample_listing "zeta" eq_refl).
  - unfold sample_listing. simpl. repeat constructor; simpl; intuition discriminate.
  - simpl. auto.
Defined.

(** ** Slugs and titles *)

Lemma map_chars_ext (f g : ascii -> ascii) (s : string) :
  (forall c, f c = g c) -> PyStr.map_chars f s = PyStr.map_chars g s.
Proof.
  intros H. induction s as [|c rest IH]; simpl; [reflexivity|].
  rewrite H, IH. reflexivity.
Qed.

Lemma map_chars_length (f : ascii -> ascii) (s : string) :
  String.length (PyStr.map_chars f s) = String.length s.
Proof.
  induction s as [|c rest IH]; simpl; [reflexivity|]. rewrite IH. reflexivity.
Qed.

Lemma forall_chars_map_chars (p : ascii -> bool) (f : ascii -> ascii) (s : string) :
  (forall c, p (f c) = true) -> PyStr.forall_chars p (PyStr.map_chars f s) = true.
Proof.
  intros H. induction s as [|c rest IH]; simpl; [reflexivity|].
  rewrite H, IH. reflexivity.
Qed.

Definition slug_char (c : ascii) : ascii :=
  (fun c0 => if Ascii.eqb c0 " " then "_"%char else c0) (PyStr.to_lower c).

Lemma topic_slug_map (query : string) :
  topic_slug query = PyStr.map_chars slug_char query.
Proof.
  unfold topic_slug, PyStr.replace, PyStr.lower.
  rewrite PyStr.map_chars_map_chars. reflexivity.
Qed.

(** X16.  On ASCII text the slug is a normal form of the query: taking
    the slug of a slug changes nothing, and queries that differ only in the
    case of their letters, or in spaces against underscores, have the same
    slug and so share a partition.  The slug of an ASCII query has the
    length of the query, no space and no capital. *)
Theorem topic_slug_normal_form (query : string) :
  PyStr.ascii_text query = true ->
  topic_slug (topic_slug query) = topic_slug query
  /\ topic_slug (PyStr.lower query) = topic_slug query
  /\ topic_slug (PyStr.replace " " "_" query) = topic_slug query
  /\ String.length (topic_slug query) = String.length query
  /\ PyStr.forall_chars (fun c => negb (Ascii.eqb c " ") && negb (PyStr.is_upper c))
       (topic_slug query) = true.
Proof.
  intros _.
  rewrite !topic_slug_map. unfold PyStr.lower, PyStr.replace.
  rewrite !PyStr.map_chars_map_chars.
  repeat split.
  - apply map_chars_ext. intros c.
    destruct c as [[] [] [] [] [] [] [] []]; reflexivity.
  - apply map_chars_ext. intros c.
    destruct c as [[] [] [] [] [] [] [] []]; reflexivity.
  - apply map_chars_ext. intros c.
    destruct c as [[] [] [] [] [] [] [] []]; reflexivity.
  - apply map_chars_length.
  - apply forall_chars_map_chars. intros c.
    destruct c as [[] [] [] [] [] [] [] []]; reflexivity.
Qed.

Lemma topic_slug_of_a_slug :
  topic_slug (topic_slug "Quantum Computing") = topic_slug "Quantum Computing"
  /\ topic_slug (PyStr.lower "Quantum Computing") = topic_slug "Quantum Computing".
Proof.
  destruct (topic_slug_normal_form "Quantum Computing" eq_refl) as (H1 & H2 & _).
  split; [exact H1|exact H2].
Defined.

Definition title_char (c : ascii) : ascii :=
  (fun c0 => if Ascii.eqb c0 "-" then " "%char else c0)
    ((fun c0 => if Ascii.eqb c0 "_" then " "%char else c0) c).

Lemma title_from_length (b : bool) (s : string) :
  String.length (PyStr.title_from b s) = String.length s.
Proof.
  revert b. induction s as [|c rest IH]; intros b; simpl; [reflexivity|].
  destruct (PyStr.is_lower c); [|destruct (PyStr.is_upper c)]; simpl; rewrite IH;
    reflexivity.
Qed.

Lemma case_keeps_separators (c : ascii) :
  is_separator c = false ->
  is_separator (PyStr.to_upper c) = false /\ is_separator (PyStr.to_lower c) = false.
Proof.
  destruct c as [[] [] [] [] [] [] [] []]; vm_compute; auto.
Qed.

Lemma title_from_no_separator (b : bool) (s : string) :
  PyStr.forall_chars (fun c => negb (is_separator c)) s = true ->
  PyStr.forall_chars (fun c => negb (is_separator c)) (PyStr.title_from b s) = true.
Proof.
  revert b. induction s as [|c rest IH]; intros b; simpl; [reflexivity|].
  intros H. apply andb_true_iff in H as [Hc Hrest].
  apply negb_true_iff in Hc. destruct (case_keeps_separators c Hc) as [Hu Hl].
  destruct (PyStr.is_lower c); [|destruct (PyStr.is_upper c)]; simpl;
    rewrite IH by exact Hrest; destruct b; rewrite ?Hu, ?Hl, ?Hc; reflexivity.
Qed.

(** X17.  The title shown for a topic folder with an ASCII name has the
    length of the folder name and no underscore or hyphen, and underscores
    and hyphens in the name are not told apart. *)
Theorem topic_title_shape (topic : string) :
  PyStr.ascii_text topic = true ->
  String.length (topic_title topic) = String.length topic
  /\ PyStr.forall_chars (fun c => negb (is_separator c)) (topic_title topic) = true
  /\ topic_title (PyStr.replace "_" "-" topic) = topic_title topic
  /\ topic_title (PyStr.replace "-" "_" topic) = topic_title topic.
Proof.
  intros _.
  unfold topic_title, PyStr.title, PyStr.replace.
  rewrite !PyStr.map_chars_map_chars.
  split; [rewrite title_from_length; apply map_chars_length|].
  split.
  - apply title_from_no_separator, forall_chars_map_chars. intros c.
    destruct c as [[] [] [] [] [] [] [] []]; reflexivity.
  - split; f_equal; apply map_chars_ext; intros c;
      destruct c as [[] [] [] [] [] [] [] []]; reflexivity.
Qed.

Lemma topic_title_of_graph_theory_notes :
  String.length (topic_title "graph-theory_notes") = String.length "graph-theory_notes"
  /\ topic_title (PyStr.replace "_" "-" "graph-theory_notes")
     = topic_title "graph-theory_notes".
Proof.
  destruct (topic_title_shape "graph-theory_notes" eq_refl) as (H1 & _ & H3 & _).
  split; [exact H1|exact H3].
Defined.

(** ** The characters [calculator] lets through *)

Lemma name_chars_not_allowed (c : ascii) :
  PyStr.is_lower c || PyStr.is_upper c || Ascii.eqb c "_" = true ->
  PyStr.has_char c allowed_chars = false.
Proof.
  destruct c as [[] [] [] [] [] [] [] []]; vm_compute; congruence.
Qed.

(** X18.  No name reaches [eval]: an expression with an ASCII letter or an
    underscore anywhere gets the invalid-characters message, whatever
    [eval] would do with it. *)
Theorem calculator_rejects_names
  (value : Type) (py_eval : string -> result value) (py_str : value -> result string)
  (expression : string) (c : ascii) :
  In c (list_ascii_of_string expression) ->
  PyStr.is_lower c || PyStr.is_upper c || Ascii.eqb c "_" = true ->
  calculator value py_eval py_str expression
  = Ok "Error: Invalid characters in expression.".
Proof.
  intros Hin Hc. unfold calculator.
  assert (Hall : all_allowed expression = false).
  { destruct (all_allowed expression) eqn:E; [|reflexivity].
    unfold all_allowed in E. rewrite forall_chars_In in E.
    apply E in Hin. rewrite (name_chars_not_allowed c Hc) in Hin. discriminate Hin. }
  rewrite Hall. reflexivity.
Qed.

Lemma calculator_rejects_a_call_of_abs :
  calculator Z sample_eval sample_str "abs(-1)"
  = Ok "Error: Invalid characters in expression.".
Proof.
  apply (calculator_rejects_names Z sample_eval sample_str "abs(-1)" "a").
  - left. reflexivity.
  - reflexivity.
Defined.

End PaperStoreProperties.

(** * Further properties of the generator snapshots *)

Module GeneratorSnapshotProperties.
Import GeneratorConfigServer GeneratorProperties.

(** Data that [json.dumps] takes as it is: no path and no object, at any
    depth. *)
Fixpoint json_only (v : pyval) : bool :=
  match v with
  | PList items => forallb json_only items
  | PDict members => forallb (fun kv => json_only (snd kv)) members
  | PPath _ => false
  | PObject _ _ => false
  | _ => true
  end.

(** Induction over a value and the values inside it. *)
Section NestedInduction.
Variable P : pyval -> Prop.
Hypothesis HNone : P PNone.
Hypothesis HBool : forall b, P (PBool b).
Hypothesis HInt : forall z, P (PInt z).
Hypothesis HFloat : forall f, P (PFloat f).
Hypothesis HStr : forall s, P (PStr s).
Hypothesis HList : forall items, Forall P items -> P (PList items).
Hypothesis HDict : forall members, Forall (fun kv => P (snd kv)) members -> P (PDict members).
Hypothesis HPath : forall text, P (PPath text).
Hypothesis HObject :
  forall class_name attributes,
    Forall (fun kv => P (snd kv)) attributes -> P (PObject class_name attributes).

Fixpoint pyval_nested_ind (v : pyval) : P v :=
  match v with
  | PNone => HNone
  | PBool b => HBool b
  | PInt z => HInt z
  | PFloat f => HFloat f
  | PStr s => HStr s
  | PList items =>
      HList items
        ((fix each (l : list pyval) : Forall P l :=
            match l with
            | [] => Forall_nil _
            | x :: rest => Forall_cons x (pyval_nested_ind x) (each rest)
            end) items)
  | PDict members =>
      HDict members
        ((fix each (l : list (string * pyval)) : Forall (fun kv => P (snd kv)) l :=
            match l with
            | [] => Forall_nil _
            | kv :: rest => Forall_cons kv (pyval_nested_ind (snd kv)) (each rest)
            end) members)
  | PPath text => HPath text
  | PObject class_name attributes =>
      HObject class_name attributes
        ((fix each (l : list (string * pyval)) : Forall (fun kv => P (snd kv)) l :=
            match l with
            | [] => Forall_nil _
            | kv :: rest => Forall_cons kv (pyval_nested_ind (snd kv)) (each rest)
            end) attributes)
  end.
End NestedInduction.

Lemma forallb_map_all {A B : Type} (p : B -> bool) (f : A -> B) (l : list A) :
  (forall x, In x l -> p (f x) = true) -> forallb p (map f l) = true.
Proof.
  intros H. apply forallb_forall. intros y Hy.
  apply in_map_iff in Hy as (x & <- & Hx). apply H, Hx.
Qed.

Section SnapshotProperties.
Variable py_str : pyval -> string.

Lemma convert_to_serializable_json_only (v : pyval) :
  json_only (convert_to_serializable py_str v) = true.
Proof.
  induction v as [| | | | |items IH|members IH| |class_name attributes _]
    using pyval_nested_ind; try reflexivity.
  - simpl. apply forallb_map_all. intros x Hx.
    rewrite Forall_forall in IH. apply IH, Hx.
  - simpl. apply forallb_map_all. intros kv Hkv.
    rewrite Forall_forall in IH. simpl. apply IH, Hkv.
Qed.

Lemma convert_to_serializable_fixes_json (v : pyval) :
  json_only v = true -> convert_to_serializable py_str v = v.
Proof.
  induction v as [| | | | |items IH|members IH| |class_name attributes _]
    using pyval_nested_ind; try reflexivity; try discriminate.
  - simpl. intros H. f_equal. rewrite <- (map_id items) at 2.
    apply map_ext_in. intros x Hx. rewrite Forall_forall in IH.
    apply IH; [exact Hx|]. rewrite forallb_forall in H. apply H, Hx.
  - simpl. intros H. f_equal. rewrite <- (map_id members) at 2.
    apply map_ext_in. intros [k x] Hx. rewrite Forall_forall in IH.
    rewrite forallb_forall in H.
    pose proof (IH (k, x) Hx (H (k, x) Hx)) as Hfix. simpl in Hfix |- *.
    rewrite Hfix. reflexivity.
Qed.

Lemma json_copy_json_only (v : pyval) : json_only (json_copy py_str v) = true.
Proof.
  induction v as [| | | | |items IH|members IH| |class_name attributes _]
    using pyval_nested_ind; try reflexivity.
  - simpl. apply forallb_map_all. intros x Hx.
    rewrite Forall_forall in IH. apply IH, Hx.
  - simpl. apply forallb_map_all. intros kv Hkv.
    rewrite Forall_forall in IH. simpl. apply IH, Hkv.
Qed.

(** X19.  [convert_to_serializable] returns plain JSON data, with every
    path and object replaced by its [str]; it leaves plain JSON data as it
    is, so converting twice is converting once, and the conversion of what
    came back from [json.loads] changes nothing. *)
Theorem convert_to_serializable_normalizes (v : pyval) :
  json_only (convert_to_serializable py_str v) = true
  /\ (json_only v = true -> convert_to_serializable py_str v = v)
  /\ convert_to_serializable py_str (convert_to_serializable py_str v)
     = convert_to_serializable py_str v
  /\ convert_to_serializable py_str (json_copy py_str v) = json_copy py_str v.
Proof.
  split; [apply convert_to_serializable_json_only|].
  split; [apply convert_to_serializable_fixes_json|].
  split; apply convert_to_serializable_fixes_json.
  - apply convert_to_serializable_json_only.
  - apply json_copy_json_only.
Qed.

(** X21.  For an initialized generator that has every attribute the
    configuration endpoint reads, [get_generator_configuration] returns the
    ten configuration fields, in the order it reads them, as plain JSON
    data and without an [error] key; [hf_model_dir] is a string. *)
Theorem get_generator_configuration_success (g : pyval) :
  not_available g = false ->
  forallb (hasattr g) config_attributes = true ->
  exists payload,
    get_generator_configuration py_str g = Ok (PDict payload)
    /\ Dict.keys payload = config_attributes
    /\ json_only (PDict payload) = true
    /\ Dict.mem "error" payload = false
    /\ exists dir, getattr g "hf_model_dir" = Ok dir
                   /\ Dict.lookup "hf_model_dir" payload = Some (PStr (py_str dir)).
Proof.
  intros Hav Hall. unfold get_generator_configuration. rewrite Hav.
  unfold configuration_snapshot.
  unfold config_attributes in Hall. simpl in Hall.
  repeat
    match goal with
    | |- context [getattr g ?a] =>
        destruct (getattr_cases g a) as [(? & _ & _ & ->)|[Hno _]];
        [cbn [bind]|rewrite Hno in Hall; simpl in Hall;
                     rewrite ?andb_false_r in Hall; discriminate Hall]
    end.
  cbn [try_except json_copy map fst snd].
  eexists. split; [reflexivity|]. split; [reflexivity|].
  split.
  { cbn [json_only forallb snd].
    rewrite !json_copy_json_only. reflexivity. }
  split; [reflexivity|].
  eexists. split; reflexivity.
Qed.

(** X23.  When an initialized generator lacks attributes that the
    configuration endpoint reads, the error payload names the first of them
    in reading order. *)
Theorem get_generator_configuration_names_first_missing (g : pyval) (missing : string) :
  not_available g = false ->
  find (fun name => negb (hasattr g name)) config_attributes = Some missing ->
  get_generator_configuration py_str g
  = Ok (error_payload
          ("Generator instance is missing an expected attribute: '"
           ++ type_name g ++ "' object has no attribute '" ++ missing ++ "'")).
Proof.
  intros Hav Hfind. unfold get_generator_configuration. rewrite Hav.
  unfold configuration_snapshot.
  unfold config_attributes in Hfind. cbn [find] in Hfind.
  repeat
    match goal with
    | |- context [getattr g ?a] =>
        destruct (getattr_cases g a) as [(? & _ & Hhas & ->)|[Hno ->]];
        [rewrite Hhas in Hfind; cbn [negb find] in Hfind; clear Hhas; cbn [bind]
        |rewrite Hno in Hfind; cbn [negb] in Hfind; injection Hfind as <-; reflexivity]
    end.
  discriminate Hfind.
Qed.

(** X22.  A cache that is there but has no length, such as [None], is not
    reported as ["N/A"]: the status endpoint returns the error payload with
    the text of the [TypeError]. *)
Theorem get_generator_status_cache_without_length (g cache : pyval) (e : exn) :
  not_available g = false ->
  getattr g "embedding_model_cache" = Ok cache ->
  py_len cache = Raise e ->
  get_generator_status py_str g
  = Ok (error_payload ("Error accessing generator status: " ++ exn_str e)).
Proof.
  intros Hav Hc He. unfold get_generator_status. rewrite Hav.
  unfold status_snapshot, cache_size.
  assert (Hhas : hasattr g "embedding_model_cache" = true).
  { destruct (getattr_cases g "embedding_model_cache") as [(? & _ & H & _)|[_ H]];
      [exact H|congruence]. }
  rewrite Hhas, Hc. cbn [bind]. rewrite He. cbn [bind try_except].
  assert (Hcls : exn_cls e = TypeError).
  { destruct cache; simpl in He; try discriminate He; injection He as <-; reflexivity. }
  rewrite Hcls. reflexivity.
Qed.

(** Both handlers answer any exception with an error payload, which is
    plain JSON data. *)
Ltac answer_with_error_payload :=
  cbn [bind try_except];
  match goal with
  | |- context [exn_cls ?e] => destruct (exn_cls e)
  end;
  eexists; split; reflexivity.

(** X20.  What the two endpoints return is always a dictionary of plain
    JSON data, whatever the generator is: no path and no object is left in
    a snapshot, and the error payloads are plain too. *)
Theorem endpoints_return_plain_json (g : pyval) :
  (exists payload,
     get_generator_configuration py_str g = Ok (PDict payload)
     /\ json_only (PDict payload) = true)
  /\ (exists payload,
       get_generator_status py_str g = Ok (PDict payload)
       /\ json_only (PDict payload) = true).
Proof.
  split.
  - unfold get_generator_configuration.
    destruct (not_available g); [eexists; split; reflexivity|].
    unfold configuration_snapshot.
    repeat
      match goal with
      | |- context [getattr g ?a] =>
          destruct (getattr g a); [cbn [bind]|answer_with_error_payload]
      end.
    cbn [try_except]. eexists. split; [reflexivity|].
    exact (json_copy_json_only (PDict _)).
  - unfold get_generator_status.
    destruct (not_available g); [eexists; split; reflexivity|].
    unfold status_snapshot.
    destruct (cache_size g "embedding_model_cache") as [a|];
      [cbn [bind]|answer_with_error_payload].
    destruct (cache_size g "completion_model_cache") as [a0|];
      [cbn [bind]|answer_with_error_payload].
    destruct (model_status g "hf_embedding_model") as [a1|];
      [cbn [bind]|answer_with_error_payload].
    destruct (model_status g "hf_completion_model") as [a2|];
      [cbn [bind]|answer_with_error_payload].
    destruct (getattr g "_initialized") as [a3|]; [cbn [bind]|answer_with_error_payload].
    assert (Hrest : forall cleanup manager_flag tools : result pyval,
      exists payload,
        try_except
          (bind cleanup (fun last_cleanup_time =>
             bind manager_flag (fun mcp_client_manager_initialized =>
               bind tools (fun mcp_client_available_tools_count =>
                 Ok (json_copy py_str
                       (PDict [ ("initialized", a3);
                                ("embedding_model_cache_size", a);
                                ("completion_model_cache_size", a0);
                                ("hf_embedding_model_loaded", a1);
                                ("hf_completion_model_loaded", a2);
                                ("last_cleanup_time", last_cleanup_time);
                                ("mcp_client_manager_initialized",
                                 mcp_client_manager_initialized);
                                ("mcp_client_available_tools_count",
                                 mcp_client_available_tools_count) ]))))))
          (fun e =>
             match exn_cls e with
             | AttributeError =>
                 Ok (error_payload
                       ("Generator instance is missing an expected attribute for status: "
                        ++ exn_str e))
             | _ => Ok (error_payload ("Error accessing generator status: " ++ exn_str e))
             end)
        = Ok (PDict payload)
        /\ json_only (PDict payload) = true).
    { intros [t|] [m|] [n|]; try answer_with_error_payload.
      cbn [bind try_except]. eexists. split; [reflexivity|].
      exact (json_copy_json_only (PDict _)). }
    apply Hrest.
Qed.
End SnapshotProperties.

Lemma convert_to_serializable_on_sample_config :
  convert_to_serializable sample_py_str (PDict [("log_dir", PStr "logs")])
  = PDict [("log_dir", PStr "logs")].
Proof.
  exact (proj1 (proj2 (convert_to_serializable_normalizes sample_py_str
                         (PDict [("log_dir", PStr "logs")]))) eq_refl).
Defined.

Lemma get_generator_configuration_on_complete_generator :
  exists payload,
    get_generator_configuration sample_py_str generator_without_status_attributes
    = Ok (PDict payload)
    /\ Dict.keys payload = config_attributes
    /\ Dict.lookup "hf_model_dir" payload = Some (PStr "models").
Proof.
  destruct (get_generator_configuration_success sample_py_str
              generator_without_status_attributes eq_refl eq_refl)
    as (payload & Hrun & Hkeys & _ & _ & dir & Hdir & Hfield).
  exists payload. split; [exact Hrun|]. split; [exact Hkeys|].
  injection Hdir as <-. exact Hfield.
Defined.

Lemma get_generator_configuration_names_hf_model_dir :
  get_generator_configuration sample_py_str generator_without_model_dir
  = Ok (error_payload
          ("Generator instance is missing an expected attribute: "
           ++ "'Generator' object has no attribute 'hf_model_dir'")).
Proof.
  exact (get_generator_configuration_names_first_missing sample_py_str
           generator_without_model_dir "hf_model_dir" eq_refl eq_refl).
Defined.

Definition generator_with_none_cache : pyval :=
  PObject "Generator" [("_initialized", PBool true); ("embedding_model_cache", PNone)].

Lemma get_generator_status_on_none_cache :
  get_generator_status sample_py_str generator_with_none_cache
  = Ok (error_payload
          "Error accessing generator status: object of type 'NoneType' has no len()").
Proof.
  exact (get_generator_status_cache_without_length sample_py_str
           generator_with_none_cache PNone _ eq_refl eq_refl eq_refl).
Defined.

End GeneratorSnapshotProperties.
